(** * csv-to-json: the [cirius] join of four CSV exports into one JSON tree

    A shallow embedding of [src/csv_to_json/cirius.py] and the properties of
    its join algorithm.

    Python dictionaries with string keys are finite maps ([gmap]); Python
    lists are lists; the positions stored in the index maps are Python
    integers ([Z]), indexed with Python's rule for negative positions.
    [print] and [raise] are the two effects of the program: a computation
    yields the lines printed so far together with either a value or the
    exception that ended it.

    The dicts that the program builds are shared by reference (a document
    is in [dokumenter] and in the [dokumentListe] of its [sag], a file list
    is in a file dictionary and in every object it was attached to), but
    each is complete before it is shared and is not written to afterwards,
    so records are plain values here.

    Outside the model: the [csv] and [json] modules themselves (a table is
    the list of dicts that [DictReader] yields, the output file holds the
    list that the encoder is given), rows with more cells than the header
    (their surplus cells go under the key [None]), and the text of the
    printed line, of which the two values it shows are kept. *)

From stdpp Require Import gmap strings list fin_maps.

#[local] Set Warnings "-register-all".
#[local] Open Scope string_scope.
#[local] Open Scope list_scope.

(** ** Python values *)

(** What a field of a record can hold: [None] (a cell missing from a short
    CSV line), a string (a CSV cell), or a list of records (the child lists
    [filListe], [cdwListe], [dokumentListe] and [notatListe]). *)
Inductive value :=
| VNone
| VStr (s : string)
| VList (l : list (gmap string value)).

(** A record is a [Dict[str, Any]]. *)
Abbreviation record := (gmap string value).

(** The hashable values that serve as dictionary keys: [None] or a string. *)
Abbreviation pykey := (option string).

(** ** Effects: exceptions and printed diagnostics *)

Inductive exn :=
| RequiredFilesMissing       (* the [Exception] of lines 35-37 *)
| KeyError (k : pykey)       (* subscript of a dict with an absent key *)
| IndexError                 (* list subscript out of range *)
| AttributeError             (* [.append] on a value that is no list *)
| TypeError.                 (* an unhashable value used as a key *)

Inductive outcome (A : Type) :=
| Returned (a : A)
| Raised (e : exn).
Arguments Returned {A} a.
Arguments Raised {A} e.

(** The line printed by [append_to_obj]: it names the key that did not
    resolve and the child object that was not attached. *)
Inductive diagnostic :=
| NotFound (index_key : pykey) (child_obj : record).

Definition M (A : Type) : Type := (list diagnostic * outcome A)%type.

Definition ret {A} (a : A) : M A := ([], Returned a).
Definition raise {A} (e : exn) : M A := ([], Raised e).
Definition print (d : diagnostic) : M unit := ([d], Returned tt).
Definition bind {A B} (m : M A) (f : A → M B) : M B :=
  match m with
  | (out, Returned a) => let '(out', r) := f a in (out ++ out', r)
  | (out, Raised e) => (out, Raised e)
  end.

#[global] Instance M_ret : MRet M := @ret.
#[global] Instance M_bind : MBind M := λ A B f m, bind m f.

(** Unfolds the monad to pairs. *)
Ltac munfold :=
  unfold mbind, M_bind, bind, mret, M_ret, ret, raise, print in *.

(** [foldM f s l] is the loop [for x in l: s = f(s, x)], left at the first
    exception. *)
Fixpoint foldM {A S} (f : S → A → M S) (s : S) (l : list A) : M S :=
  match l with
  | [] => mret s
  | x :: l => s' ← f s x; foldM f s' l
  end.

(** ** Python primitives *)

(** [r[k]] on a dict. *)
Definition getitem (r : record) (k : string) : M value :=
  match r !! k with
  | Some v => mret v
  | None => raise (KeyError (Some k))
  end.

(** Hashing a value to use it as a key ([k in d], [d[k]]). *)
Definition hash_key (v : value) : M pykey :=
  match v with
  | VNone => mret None
  | VStr s => mret (Some s)
  | VList _ => raise TypeError
  end.

(** The position [l[i]] reads for a Python integer [i] on a list of length
    [len]: negative positions count from the end. *)
Definition py_index (len : nat) (i : Z) : option nat :=
  if bool_decide (0 ≤ i < Z.of_nat len)%Z then Some (Z.to_nat i)
  else if bool_decide (- Z.of_nat len ≤ i < 0)%Z
       then Some (Z.to_nat (Z.of_nat len + i))
  else None.

(** [l[i]], with its position. *)
Definition list_getitem (l : list record) (i : Z) : M (nat * record) :=
  match py_index (length l) i with
  | Some n =>
      match l !! n with
      | Some x => mret (n, x)
      | None => raise IndexError
      end
  | None => raise IndexError
  end.

(** [v.append(x)]: only lists have the method. *)
Definition py_append (v : value) (x : record) : M value :=
  match v with
  | VList l => mret (VList (l ++ [x]))
  | _ => raise AttributeError
  end.

(** [v != ""]. *)
Definition ne_empty_str (v : value) : bool :=
  match v with
  | VStr s => negb (bool_decide (s = ""))
  | _ => true
  end.

(** [v in l] for a list [l] of dicts and a field value [v]: [in] compares
    [v] with each element of [l] by [==], and a field value ([None], a
    string or a list) never equals a dict. *)
Definition value_eq_record (v : value) (r : record) : bool := false.
Definition value_in_records (v : value) (l : list record) : bool :=
  existsb (value_eq_record v) l.

(** ** [append_to_obj] (lines 195-217) *)

(** The helper mutates [parent_objects] in place and only reads
    [parent_index_map]; the model returns both as they are when the call
    returns. *)
Definition append_to_obj
    (parent_objects : list record) (parent_index_map : gmap pykey Z)
    (index_key : pykey) (child_obj_type : string) (child_obj : record)
  : M (list record * gmap pykey Z) :=
  match parent_index_map !! index_key with
  | None =>
      print (NotFound index_key child_obj);;
      mret (parent_objects, parent_index_map)
  | Some i =>
      '(n, corresponding_obj) ← list_getitem parent_objects i;
      let corresponding_obj :=
        match corresponding_obj !! child_obj_type with
        | None => <[child_obj_type := VList []]> corresponding_obj
        | Some _ => corresponding_obj
        end in
      children ← getitem corresponding_obj child_obj_type;
      children ← py_append children child_obj;
      mret (<[n := <[child_obj_type := children]> corresponding_obj]>
              parent_objects,
            parent_index_map)
  end.

(** ** The four input tables and the output file *)

(** A row as [csv.DictReader] yields it: a dict from the column names of the
    header to the cells of the line, [None] for a cell that a short line
    lacks. *)
Abbreviation csv_row := (gmap string (option string)).

Definition cell (c : option string) : value :=
  match c with
  | Some s => VStr s
  | None => VNone
  end.

Definition row_dict (row : csv_row) : record := cell <$> row.

Definition DictReader (rows : list csv_row) : list record :=
  row_dict <$> rows.

(** The folder given on the command line: the four input files, each
    present or not, and the output file [cirius.json], which holds the list
    of [sager] that the JSON encoder was given. *)
Record folder := Folder {
  fil_csv : option (list csv_row);
  sag_csv : option (list csv_row);
  dokumentcdw_csv : option (list csv_row);
  notat_csv : option (list csv_row);
  cirius_json : option (list record)
}.

(** ** Pass 1: the file dictionaries (lines 46-70) *)

Record file_dicts := FileDicts {
  dokumentFiles : gmap pykey (list record);
  cdwFiles : gmap pykey (list record);
  notatFiles : gmap pykey (list record)
}.

(** The three dictionaries that [dict_mapping] names. *)
Inductive template := Dokument | Cdw | Notat.

#[global] Instance template_eq_dec : EqDecision template.
Proof. solve_decision. Defined.

Definition template_name (t : template) : string :=
  match t with
  | Dokument => "dokument"
  | Cdw => "cdw"
  | Notat => "notat"
  end.

(** [dict_mapping[name]]. *)
Definition dict_mapping (name : pykey) : M template :=
  if bool_decide (name = Some "dokument") then mret Dokument
  else if bool_decide (name = Some "cdw") then mret Cdw
  else if bool_decide (name = Some "notat") then mret Notat
  else raise (KeyError name).

Definition files_of (t : template) (fd : file_dicts)
  : gmap pykey (list record) :=
  match t with
  | Dokument => dokumentFiles fd
  | Cdw => cdwFiles fd
  | Notat => notatFiles fd
  end.

Definition set_files_of (t : template) (d : gmap pykey (list record))
    (fd : file_dicts) : file_dicts :=
  match t with
  | Dokument => FileDicts d (cdwFiles fd) (notatFiles fd)
  | Cdw => FileDicts (dokumentFiles fd) d (notatFiles fd)
  | Notat => FileDicts (dokumentFiles fd) (cdwFiles fd) d
  end.

(** The body of the loop over [fil.csv]. *)
Definition fil_step (fd : file_dicts) (fil : record) : M file_dicts :=
  name ← getitem fil "notes_template_name";
  name ← hash_key name;
  t ← dict_mapping name;
  let appropriate_dict := files_of t fd in
  id ← getitem fil "notes_template_id";
  id ← hash_key id;
  let appropriate_dict :=
    match appropriate_dict !! id with
    | None => <[id := []]> appropriate_dict
    | Some _ => appropriate_dict
    end in
  let appropriate_dict :=
    <[id := default [] (appropriate_dict !! id) ++ [fil]]> appropriate_dict in
  mret (set_files_of t appropriate_dict fd).

Definition read_fil (rows : list record) : M file_dicts :=
  foldM fil_step (FileDicts ∅ ∅ ∅) rows.

(** ** Pass 2: the list of [sager] and its index (lines 76-83) *)

Definition sag_step (st : list record * gmap pykey Z) (sag : record)
  : M (list record * gmap pykey Z) :=
  let '(sager, index_mapping_sager) := st in
  let sager := sager ++ [sag] in
  nr ← getitem sag "SagsNr";
  nr ← hash_key nr;
  mret (sager, <[nr := (Z.of_nat (length sager) - 1)%Z]> index_mapping_sager).

Definition read_sag (rows : list record) : M (list record * gmap pykey Z) :=
  foldM sag_step ([], ∅) rows.

(** ** Pass 3: [dokumentcdw.csv] (lines 88-164) *)

Definition cdw_keys : list string :=
  [ "cdw_id"; "cdwDocumentUniqueID"; "cdwCreatedDate"; "From1"; "PostedDate";
    "SendTo"; "CopyTo"; "BlindCopyTo"; "Subject"; "cdwBody" ].

(** [if value is None: value = ""]. *)
Definition none_to_empty (v : value) : value :=
  match v with
  | VNone => VStr ""
  | _ => v
  end.

(** The loop of lines 127-133: the row is split into [(dokument, cdw)]. *)
Definition split_dokumentcdw (dokumentcdw : record) : record * record :=
  map_fold
    (λ key value '(dokument, cdw),
       let value := none_to_empty value in
       if bool_decide (key ∈ cdw_keys)
       then (dokument, <[key := value]> cdw)
       else (<[key := value]> dokument, cdw))
    (∅, ∅) dokumentcdw.

(** [if id in files: obj["filListe"] = files[id]] (lines 142-145, 160-161
    and 177-178). *)
Definition add_filListe (files : gmap pykey (list record)) (id : pykey)
    (obj : record) : record :=
  match files !! id with
  | Some l => <["filListe" := VList l]> obj
  | None => obj
  end.

Definition append_to_dokument
    (dokumenter : list record) (index_mapping_dokumenter : gmap pykey Z)
    (dokId : pykey) (obj : record) : M (list record * gmap pykey Z) :=
  append_to_obj dokumenter index_mapping_dokumenter dokId "cdwListe" obj.

(** The body of the loop over [dokumentcdw.csv]. *)
Definition dokumentcdw_step (fd : file_dicts)
    (st : list record * gmap pykey Z) (dokumentcdw : record)
  : M (list record * gmap pykey Z) :=
  let '(dokumenter, index_mapping_dokumenter) := st in
  let '(dokument, cdw) := split_dokumentcdw dokumentcdw in
  dokument_id ← getitem dokument "dokument_id";
  '(dokumenter, index_mapping_dokumenter) ←
    (if negb (value_in_records dokument_id dokumenter) then
       id ← hash_key dokument_id;
       let dokument := add_filListe (dokumentFiles fd) id dokument in
       let dokumenter := dokumenter ++ [dokument] in
       mret (dokumenter,
             <[id := (Z.of_nat (length dokumenter) - 1)%Z]>
               index_mapping_dokumenter)
     else mret (dokumenter, index_mapping_dokumenter));
  cdw_id ← getitem cdw "cdw_id";
  if ne_empty_str cdw_id then
    id ← hash_key cdw_id;
    let cdw := add_filListe (cdwFiles fd) id cdw in
    dokId ← getitem dokumentcdw "dokument_id";
    dokId ← hash_key dokId;
    append_to_dokument dokumenter index_mapping_dokumenter dokId cdw
  else mret (dokumenter, index_mapping_dokumenter).

Definition read_dokumentcdw (fd : file_dicts) (rows : list record)
  : M (list record * gmap pykey Z) :=
  foldM (dokumentcdw_step fd) ([], ∅) rows.

(** ** Pass 4: documents and notes go under their [sag] (lines 167-183) *)

Definition append_to_sag
    (sager : list record) (index_mapping_sager : gmap pykey Z)
    (sagsNr : pykey) (obj_type : string) (obj : record)
  : M (list record * gmap pykey Z) :=
  append_to_obj sager index_mapping_sager sagsNr obj_type obj.

Definition dokument_step (st : list record * gmap pykey Z) (dokument : record)
  : M (list record * gmap pykey Z) :=
  let '(sager, index_mapping_sager) := st in
  sagsnr ← getitem dokument "SagsNr";
  sagsnr ← hash_key sagsnr;
  append_to_sag sager index_mapping_sager sagsnr "dokumentListe" dokument.

Definition notat_step (fd : file_dicts) (st : list record * gmap pykey Z)
    (notat : record) : M (list record * gmap pykey Z) :=
  let '(sager, index_mapping_sager) := st in
  id ← getitem notat "notat_id";
  id ← hash_key id;
  let notat := add_filListe (notatFiles fd) id notat in
  sagsnr ← getitem notat "SagsNr";
  sagsnr ← hash_key sagsnr;
  append_to_sag sager index_mapping_sager sagsnr "notatListe" notat.

(** ** [cirius] (lines 17-189) *)

(** Everything between the existence check and the JSON encoder: the list
    [sager] that is encoded. *)
Definition build_sager (fil sag dokumentcdw notat : list csv_row)
  : M (list record) :=
  fd ← read_fil (DictReader fil);
  '(sager, index_mapping_sager) ← read_sag (DictReader sag);
  '(dokumenter, _) ← read_dokumentcdw fd (DictReader dokumentcdw);
  '(sager, index_mapping_sager) ←
    foldM dokument_step (sager, index_mapping_sager) dokumenter;
  '(sager, _) ←
    foldM (notat_step fd) (sager, index_mapping_sager) (DictReader notat);
  mret sager.

(** A run: the folder as the run leaves it, what was printed, and whether
    the run returned or raised. *)
Definition cirius (fs : folder) : folder * M unit :=
  match fil_csv fs, sag_csv fs, dokumentcdw_csv fs, notat_csv fs with
  | Some fil, Some sag, Some dokumentcdw, Some notat =>
      match build_sager fil sag dokumentcdw notat with
      | (out, Returned sager) =>
          (Folder (fil_csv fs) (sag_csv fs) (dokumentcdw_csv fs)
                  (notat_csv fs) (Some sager),
           (out, Returned tt))
      | (out, Raised e) => (fs, (out, Raised e))
      end
  | _, _, _, _ => (fs, raise RequiredFilesMissing)
  end.

(** ** Notions the properties are stated with *)

(** The child list that [append_to_obj] appends to: the field's list, or the
    empty list that the helper creates when the field is absent. *)
Definition children_of (obj : record) (child_obj_type : string)
  : option (list record) :=
  match obj !! child_obj_type with
  | None => Some []
  | Some (VList l) => Some l
  | Some _ => None
  end.

(** The key a field of a record hashes to, when the field is there and is
    hashable. *)
Definition key_of (v : value) : option pykey :=
  match v with
  | VNone => Some None
  | VStr s => Some (Some s)
  | VList _ => None
  end.

Definition field_key (r : record) (f : string) : option pykey :=
  r !! f ≫= key_of.

(** The position of the last row of a table of [sager] whose [SagsNr] is
    [k]. *)
Fixpoint last_position (k : pykey) (rows : list record) : option nat :=
  match rows with
  | [] => None
  | r :: rows =>
      match last_position k rows with
      | Some i => Some (S i)
      | None =>
          if bool_decide (field_key r "SagsNr" = Some k) then Some 0 else None
      end
  end.

(** [same_fields_but tys p p']: the record [p'] is [p] up to the fields
    named in [tys]. *)
Definition same_fields_but (tys : list string) (p p' : record) : Prop :=
  ∀ k : string, k ∉ tys → p' !! k = p !! k.

(** *** What the output holds of [fil.csv] *)

(** The row [fil] of [fil.csv] belongs to the object [id] of kind [t]. *)
Definition is_file_of (t : template) (id : pykey) (fil : record) : Prop :=
  field_key fil "notes_template_name" = Some (Some (template_name t))
  ∧ field_key fil "notes_template_id" = Some id.

#[global] Instance is_file_of_dec t id fil : Decision (is_file_of t id fil).
Proof. unfold is_file_of. apply _. Defined.

(** The rows of [fil.csv] that belong to the object [id] of kind [t], in the
    order of the table. *)
Definition files_matching (t : template) (id : pykey) (rows : list record)
  : list record :=
  filter (is_file_of t id) rows.

(** The entry of a file dictionary for the rows [l] that belong to a key: no
    entry when there is none. *)
Definition files_entry (l : list record) : option (list record) :=
  match l with
  | [] => None
  | _ => Some l
  end.





(** [referenced t id dokumentcdw notat]: a row of [dokumentcdw.csv] or of
    [notat.csv] makes the run look up the key [id] in the file dictionary of
    kind [t].  The ids of documents and attachments are looked up with
    [None] replaced by the empty string, and an attachment with the empty id
    is not looked up. *)
Definition referenced (t : template) (id : pykey)
    (dokumentcdw notat : list csv_row) : Prop :=
  match t with
  | Dokument =>
      ∃ row c, row ∈ dokumentcdw ∧ row !! "dokument_id" = Some c
               ∧ id = Some (default "" c)
  | Cdw =>
      ∃ row c, row ∈ dokumentcdw ∧ row !! "cdw_id" = Some c
               ∧ default "" c ≠ "" ∧ id = Some (default "" c)
  | Notat => ∃ row, row ∈ notat ∧ row !! "notat_id" = Some id
  end.

(** ** Example tables *)

(** Two [sager] with the same [SagsNr]. *)
Definition sag_1a : csv_row := {["SagsNr" := Some "1"; "Titel" := Some "a"]}.
Definition sag_1b : csv_row := {["SagsNr" := Some "1"; "Titel" := Some "b"]}.
Definition sager_same_nr : list csv_row := [sag_1a; sag_1b].

(** One [sag], and one document of it on two rows of [dokumentcdw.csv],
    each row with an attachment of its own. *)
Definition sag_1 : csv_row := {["SagsNr" := Some "1"]}.
Definition dokument_d_cdw_a : csv_row :=
  {["dokument_id" := Some "d"; "SagsNr" := Some "1"; "cdw_id" := Some "a"]}.
Definition dokument_d_cdw_b : csv_row :=
  {["dokument_id" := Some "d"; "SagsNr" := Some "1"; "cdw_id" := Some "b"]}.
Definition folder_dokument_twice : folder :=
  Folder (Some []) (Some [sag_1])
         (Some [dokument_d_cdw_a; dokument_d_cdw_b]) (Some []) None.

(** A folder whose [fil.csv] has a row of an unknown kind, and one without
    [notat.csv]. *)
Definition fil_of_sag : csv_row :=
  {["notes_template_name" := Some "sag"; "notes_template_id" := Some "1"]}.
Definition folder_unknown_template : folder :=
  Folder (Some [fil_of_sag]) (Some [sag_1]) (Some []) (Some []) None.
Definition folder_without_notat : folder :=
  Folder (Some []) (Some [sag_1]) (Some []) None None.

(** A folder with two [sager], whose documents and notes come in the
    reverse order, and the [sager] that a run over it writes. *)
Definition sag_2 : csv_row := {["SagsNr" := Some "2"]}.
Definition dokument_of_2 : csv_row :=
  {["dokument_id" := Some "d2"; "SagsNr" := Some "2"; "cdw_id" := Some ""]}.
Definition dokument_of_1 : csv_row :=
  {["dokument_id" := Some "d1"; "SagsNr" := Some "1"; "cdw_id" := Some ""]}.
Definition notat_of_2 : csv_row :=
  {["notat_id" := Some "n2"; "SagsNr" := Some "2"]}.
Definition notat_of_1 : csv_row :=
  {["notat_id" := Some "n1"; "SagsNr" := Some "1"]}.
Definition folder_reverse_order : folder :=
  Folder (Some []) (Some [sag_1; sag_2])
         (Some [dokument_of_2; dokument_of_1])
         (Some [notat_of_2; notat_of_1]) None.
Definition run_reverse_order : list record :=
  [ <["notatListe" := VList [row_dict notat_of_1]]>
      (<["dokumentListe" :=
           VList [{["dokument_id" := VStr "d1"; "SagsNr" := VStr "1"]}]]>
         (row_dict sag_1));
    <["notatListe" := VList [row_dict notat_of_2]]>
      (<["dokumentListe" :=
           VList [{["dokument_id" := VStr "d2"; "SagsNr" := VStr "2"]}]]>
         (row_dict sag_2)) ].

(** A folder with files: two of the document [d1], one of its attachment
    [a], and one of a note [n9] that [notat.csv] does not have; and the
    [sager] that a run over it writes. *)
Definition fil_1 : csv_row :=
  {["notes_template_name" := Some "dokument"; "notes_template_id" := Some "d1";
    "fil_id" := Some "f1"]}.
Definition fil_2 : csv_row :=
  {["notes_template_name" := Some "cdw"; "notes_template_id" := Some "a";
    "fil_id" := Some "f2"]}.
Definition fil_3 : csv_row :=
  {["notes_template_name" := Some "dokument"; "notes_template_id" := Some "d1";
    "fil_id" := Some "f3"]}.
Definition fil_4 : csv_row :=
  {["notes_template_name" := Some "notat"; "notes_template_id" := Some "n9";
    "fil_id" := Some "f4"]}.
Definition dokument_d1_cdw_a : csv_row :=
  {["dokument_id" := Some "d1"; "SagsNr" := Some "1"; "cdw_id" := Some "a"]}.
Definition folder_with_files : folder :=
  Folder (Some [fil_1; fil_2; fil_3; fil_4]) (Some [sag_1])
         (Some [dokument_d1_cdw_a]) (Some [notat_of_1]) None.

Definition fil_of_d : csv_row :=
  {["notes_template_name" := Some "dokument"; "notes_template_id" := Some "d";
    "fil_id" := Some "f"]}.
Definition folder_dokument_twice_with_file : folder :=
  Folder (Some [fil_of_d]) (Some [sag_1])
         (Some [dokument_d_cdw_a; dokument_d_cdw_b]) (Some []) None.

(** ** Notions for what the passes compute *)

(** Every position that the index holds is a position of a list of length
    [len]. *)
Definition index_in_range (index : gmap pykey Z) (len : nat) : Prop :=
  ∀ k i, index !! k = Some i → (0 ≤ i < Z.of_nat len)%Z.

(** The parent [p] after the children [cs] were attached to its list [ty]:
    untouched when there is no child. *)
Definition attach_list (ty : string) (cs : list record) (p : record)
  : record :=
  match cs with
  | [] => p
  | _ => <[ty := VList (default [] (children_of p ty) ++ cs)]> p
  end.

(** The children whose key [f c] the index resolves to position [n], and
    the diagnostics for the children whose key it does not resolve. *)
Definition children_at (index : gmap pykey Z) (f : record → pykey) (n : nat)
    (cs : list record) : list record :=
  filter (λ c, index !! f c = Some (Z.of_nat n)) cs.

Definition orphans (index : gmap pykey Z) (f : record → pykey)
    (cs : list record) : list diagnostic :=
  (λ c, NotFound (f c) c) <$> filter (λ c, index !! f c = None) cs.


(** The cell of a column in a row, [None] also when the row lacks the
    column. *)
Definition cell_of (row : csv_row) (column : string) : option string :=
  default None (row !! column).

(** The document and the attachment that a row of [dokumentcdw.csv]
    yields, each with its file list. *)
Definition dokument_part (fd : file_dicts) (row : csv_row) : record :=
  add_filListe (dokumentFiles fd)
               (Some (default "" (cell_of row "dokument_id")))
               (split_dokumentcdw (row_dict row)).1.

Definition cdw_part (fd : file_dicts) (row : csv_row) : record :=
  add_filListe (cdwFiles fd) (Some (default "" (cell_of row "cdw_id")))
               (split_dokumentcdw (row_dict row)).2.

(** The row has an attachment: its [cdw_id] is not empty. *)
Definition has_cdw (row : csv_row) : bool :=
  negb (bool_decide (default "" (cell_of row "cdw_id") = "")).

(** The attachment of a row reaches the document of the row when the row
    has a [dokument_id] cell: line 164 looks the document up under the cell
    as it was read, and the document was filed under the cell with [None]
    replaced by the empty string. *)
Definition cdw_attached (row : csv_row) : bool :=
  has_cdw row && bool_decide (is_Some (cell_of row "dokument_id")).

Definition document_of_row (fd : file_dicts) (row : csv_row) : record :=
  if cdw_attached row
  then <["cdwListe" := VList [cdw_part fd row]]> (dokument_part fd row)
  else dokument_part fd row.

(** The diagnostics of pass 3: the attachments of rows without a
    [dokument_id] cell. *)
Definition lost_cdw (fd : file_dicts) (rows : list csv_row)
  : list diagnostic :=
  (λ row, NotFound None (cdw_part fd row))
    <$> filter (λ row, has_cdw row ∧ ¬ cdw_attached row) rows.

(** The note that a row of [notat.csv] yields. *)
Definition note_of_row (fd : file_dicts) (row : csv_row) : record :=
  add_filListe (notatFiles fd) (cell_of row "notat_id") (row_dict row).

(** The key under which a document or a note looks for its [sag]. *)
Definition sagsnr_of (obj : record) : pykey :=
  default None (field_key obj "SagsNr").

(** Tables that have the columns the passes read, and no column named as
    one of the child lists that the passes add to their rows. *)
Definition fil_row_ok (row : csv_row) : Prop :=
  (∃ t, row !! "notes_template_name" = Some (Some (template_name t)))
  ∧ is_Some (row !! "notes_template_id").

Definition sag_row_ok (row : csv_row) : Prop :=
  is_Some (row !! "SagsNr")
  ∧ row !! "dokumentListe" = None ∧ row !! "notatListe" = None.

Definition dokumentcdw_row_ok (row : csv_row) : Prop :=
  is_Some (row !! "dokument_id") ∧ is_Some (row !! "cdw_id")
  ∧ is_Some (row !! "SagsNr") ∧ row !! "cdwListe" = None.

Definition notat_row_ok (row : csv_row) : Prop :=
  is_Some (row !! "notat_id") ∧ is_Some (row !! "SagsNr").


(** The [sager] that a run writes, and the lines it prints in pass 4, for
    the index [index] of the [sager] and the documents and notes that the
    earlier passes made. *)
Definition joined (index : gmap pykey Z) (sager docs notes : list record)
  : list record :=
  imap (λ n sag,
          attach_list "notatListe" (children_at index sagsnr_of n notes)
            (attach_list "dokumentListe" (children_at index sagsnr_of n docs)
               sag))
       sager.


(** An exception that is neither an [IndexError] nor a [TypeError]: it
    comes from no list subscript out of range and from no value that cannot
    be hashed or subscripted. *)
Definition run_exn (e : exn) : Prop :=
  match e with
  | RequiredFilesMissing | KeyError _ | AttributeError => True
  | IndexError | TypeError => False
  end.


(** The field [f] of [obj] is no list: it is absent or a cell of the CSV
    row that [obj] comes from. *)
Definition no_list_at (f : string) (obj : record) : Prop :=
  ∀ l, obj !! f ≠ Some (VList l).


(** A folder in which a document and a note name a [sag] that [sag.csv]
    does not have. *)
Definition folder_orphans : folder :=
  Folder (Some []) (Some [sag_1]) (Some [dokument_of_2]) (Some [notat_of_2])
         None.


(** A row of [dokumentcdw.csv] from a short line: it has an attachment
    and its [dokument_id] cell is missing. *)
Definition dokument_short : csv_row :=
  {["dokument_id" := None; "SagsNr" := Some "1"; "cdw_id" := Some "c"]}.

(** * Properties *)

(** ** The effect monad *)

Lemma bind_ret_l {A B} (a : A) (f : A → M B) : (mret a ≫= f) = f a.
Proof. munfold. by destruct (f a). Qed.

Lemma bind_returned_l {A B} (a : A) (f : A → M B) :
  (([], Returned a) : M A) ≫= f = f a.
Proof. apply bind_ret_l. Qed.

Lemma bind_returned {A B} (m : M A) (f : A → M B) out b :
  m ≫= f = (out, Returned b) →
  ∃ out1 a out2, m = (out1, Returned a) ∧ f a = (out2, Returned b)
                 ∧ out = out1 ++ out2.
Proof.
  munfold. destruct m as [out1 [a|e]]; [|done].
  destruct (f a) as [out2 r] eqn:Hf. intros [= <- ->]. by exists out1, a, out2.
Qed.

Lemma foldM_cons {A S} (f : S → A → M S) s x l :
  foldM f s (x :: l) = f s x ≫= λ s', foldM f s' l.
Proof. done. Qed.

Implicit Types (parents sager dokumenter : list record).
Implicit Types (imap : gmap pykey Z) (key : pykey) (ty : string).
Implicit Types (child obj p : record) (fd : file_dicts).

Lemma py_index_lt len i n : py_index len i = Some n → n < len.
Proof.
  unfold py_index. repeat case_bool_decide; intros [= <-]; lia.
Qed.

Lemma py_index_nonneg len (n : nat) : n < len → py_index len (Z.of_nat n) = Some n.
Proof.
  intros. unfold py_index. rewrite bool_decide_eq_true_2 by lia.
  by rewrite Nat2Z.id.
Qed.

(** [append_to_obj] case by case. *)
Lemma append_to_obj_cases parents imap key ty child :
  append_to_obj parents imap key ty child =
  match imap !! key with
  | None => ([NotFound key child], Returned (parents, imap))
  | Some i =>
      match py_index (length parents) i with
      | None => ([], Raised IndexError)
      | Some n =>
          match parents !! n with
          | None => ([], Raised IndexError)
          | Some p =>
              match children_of p ty with
              | None => ([], Raised AttributeError)
              | Some l =>
                  ([], Returned
                         (<[n := <[ty := VList (l ++ [child])]> p]> parents,
                          imap))
              end
          end
      end
  end.
Proof.
  unfold append_to_obj, list_getitem, children_of.
  destruct (imap !! key) as [i|]; [|done].
  destruct (py_index _ i) as [n|]; [|done].
  destruct (parents !! n) as [p|]; [|done].
  rewrite bind_ret_l. unfold getitem.
  destruct (p !! ty) as [[| |l]|] eqn:Hty; rewrite ?Hty; try done.
  rewrite lookup_insert_eq, !bind_ret_l. simpl. by rewrite insert_insert_eq.
Qed.

Lemma append_to_obj_returned parents imap key ty child out parents' imap' :
  append_to_obj parents imap key ty child = (out, Returned (parents', imap')) →
  imap' = imap ∧
  ((imap !! key = None ∧ out = [NotFound key child] ∧ parents' = parents) ∨
   (∃ i n p l,
      imap !! key = Some i ∧ py_index (length parents) i = Some n ∧
      parents !! n = Some p ∧ children_of p ty = Some l ∧ out = [] ∧
      parents' = <[n := <[ty := VList (l ++ [child])]> p]> parents)).
Proof.
  rewrite append_to_obj_cases.
  destruct (imap !! key) as [i|] eqn:Hk;
    [|intros ?; simplify_eq; naive_solver].
  destruct (py_index _ i) as [n|] eqn:Hi; [|done].
  destruct (parents !! n) as [p|] eqn:Hp; [|done].
  destruct (children_of p ty) as [l|] eqn:Hl; [|done].
  intros ?; simplify_eq. split; [done|]. right. by exists i, n, p, l.
Qed.

Lemma append_to_obj_absent parents imap key ty child :
  imap !! key = None →
  append_to_obj parents imap key ty child
  = ([NotFound key child], Returned (parents, imap)).
Proof. intros H. by rewrite append_to_obj_cases, H. Qed.

Lemma append_to_obj_present parents imap key ty child i n p l :
  imap !! key = Some i →
  py_index (length parents) i = Some n →
  parents !! n = Some p →
  children_of p ty = Some l →
  append_to_obj parents imap key ty child
  = ([], Returned (<[n := <[ty := VList (l ++ [child])]> p]> parents, imap)).
Proof. intros Hk Hi Hn Hl. by rewrite append_to_obj_cases, Hk, Hi, Hn, Hl. Qed.

Lemma children_of_insert p ty l :
  children_of (<[ty := VList l]> p) ty = Some l.
Proof. unfold children_of. by rewrite lookup_insert_eq. Qed.

(** Attaching a run of children to one parent appends them in order. *)
Lemma append_to_obj_many parents imap key ty i n p cs : ∀ l child,
  imap !! key = Some i →
  py_index (length parents) i = Some n →
  parents !! n = Some p →
  children_of p ty = Some l →
  foldM (λ '(ps, im) c, append_to_obj ps im key ty c) (parents, imap)
        (child :: cs)
  = ([], Returned (<[n := <[ty := VList (l ++ child :: cs)]> p]> parents,
                   imap)).
Proof.
  revert parents p. induction cs as [|c cs IH]; intros parents p l child Hk Hi Hn Hl.
  - simpl. rewrite (append_to_obj_present _ _ _ _ _ i n p l) by done.
    by rewrite bind_returned_l.
  - rewrite foldM_cons.
    rewrite (append_to_obj_present _ _ _ _ _ i n p l) by done.
    rewrite bind_returned_l.
    pose proof (py_index_lt _ _ _ Hi) as Hlt.
    rewrite (IH _ (<[ty := VList (l ++ [child])]> p) (l ++ [child]) c).
    + rewrite list_insert_insert_eq, insert_insert_eq.
      by rewrite <- app_assoc.
    + done.
    + by rewrite length_insert.
    + by apply list_lookup_insert_eq.
    + apply children_of_insert.
Qed.

(** ** The parent-attach helper *)

(** C3. A call of [append_to_obj] whose key is absent from the index map
    raises nothing, prints one diagnostic that names the key and the child,
    and leaves the parents (and the map) as they were.  A call whose key is
    present, mapped to a position of the parent list, creates the child list
    on that parent when the field is absent and appends the child to it when
    it is a list; a run of such calls for one key leaves the children in the
    order of the calls. *)
Theorem append_to_obj_contract parents imap key ty child :
  (imap !! key = None →
     append_to_obj parents imap key ty child
     = ([NotFound key child], Returned (parents, imap)))
  ∧ (∀ i n p,
       imap !! key = Some i →
       py_index (length parents) i = Some n →
       parents !! n = Some p →
       (p !! ty = None →
          append_to_obj parents imap key ty child
          = ([], Returned (<[n := <[ty := VList [child]]> p]> parents, imap)))
       ∧ (∀ l, p !! ty = Some (VList l) →
            append_to_obj parents imap key ty child
            = ([], Returned
                     (<[n := <[ty := VList (l ++ [child])]> p]> parents,
                      imap)))
       ∧ (∀ l cs, children_of p ty = Some l →
            foldM (λ '(ps, im) c, append_to_obj ps im key ty c)
                  (parents, imap) (child :: cs)
            = ([], Returned
                     (<[n := <[ty := VList (l ++ child :: cs)]> p]> parents,
                      imap)))).
Proof.
  split; [apply append_to_obj_absent|].
  intros i n p Hk Hi Hn. split; [|split].
  - intros Hty. apply (append_to_obj_present _ _ _ _ _ i n p []); try done.
    unfold children_of. by rewrite Hty.
  - intros l Hty. apply (append_to_obj_present _ _ _ _ _ i n p l); try done.
    unfold children_of. by rewrite Hty.
  - intros l cs Hl. by apply (append_to_obj_many _ _ _ _ i).
Qed.

Lemma append_to_obj_contract_witness :
  let sag : record := {["SagsNr" := VStr "1"]} in
  let notat1 : record := {["notat_id" := VStr "n1"]} in
  let notat2 : record := {["notat_id" := VStr "n2"]} in
  let imap : gmap pykey Z := {[Some "1" := 0%Z]} in
  (imap !! Some "2" = None
   ∧ append_to_obj [sag] imap (Some "2") "notatListe" notat1
     = ([NotFound (Some "2") notat1], Returned ([sag], imap)))
  ∧ (imap !! Some "1" = Some 0%Z ∧ py_index 1 0 = Some 0
     ∧ [sag] !! 0 = Some sag ∧ sag !! "notatListe" = None
     ∧ children_of sag "notatListe" = Some []
     ∧ append_to_obj [sag] imap (Some "1") "notatListe" notat1
       = ([], Returned ([<["notatListe" := VList [notat1]]> sag], imap))
     ∧ foldM (λ '(ps, im) c, append_to_obj ps im (Some "1") "notatListe" c)
             ([sag], imap) [notat1; notat2]
       = ([], Returned
                ([<["notatListe" := VList [notat1; notat2]]> sag], imap))).
Proof.
  intros sag notat1 notat2 imap.
  assert (imap !! Some "2" = None) as Hk2 by reflexivity.
  assert (imap !! Some "1" = Some 0%Z) as Hk1 by reflexivity.
  assert (py_index 1 0 = Some 0) as Hi by reflexivity.
  assert (sag !! "notatListe" = None) as Hty by reflexivity.
  assert (children_of sag "notatListe" = Some []) as Hl
    by reflexivity.
  destruct (append_to_obj_contract [sag] imap (Some "2") "notatListe" notat1)
    as [Habsent _].
  destruct (append_to_obj_contract [sag] imap (Some "1") "notatListe" notat1)
    as [_ Hpresent].
  destruct (Hpresent 0%Z 0 sag Hk1 Hi eq_refl) as (Hnew & _ & Hmany).
  split; [split; [exact Hk2|exact (Habsent Hk2)]|].
  split; [exact Hk1|]. split; [exact Hi|]. split; [reflexivity|].
  split; [exact Hty|]. split; [exact Hl|].
  split; [exact (Hnew Hty)|exact (Hmany [] [notat2] Hl)].
Defined.

(** C10. A call of [append_to_obj] that finds its key and returns has
    changed one field of one parent: the index map is as it was, the parent
    list has the same length, every parent at another position is as it was,
    and on the parent at the mapped position every field other than the
    child list is as it was. *)
Theorem append_to_obj_frame parents imap key ty child i out parents' imap' :
  imap !! key = Some i →
  append_to_obj parents imap key ty child = (out, Returned (parents', imap')) →
  imap' = imap
  ∧ length parents' = length parents
  ∧ ∃ n p p',
      py_index (length parents) i = Some n
      ∧ parents !! n = Some p ∧ parents' !! n = Some p'
      ∧ (∀ m, m ≠ n → parents' !! m = parents !! m)
      ∧ (∀ k, k ≠ ty → p' !! k = p !! k).
Proof.
  intros Hk Hrun.
  apply append_to_obj_returned in Hrun as [-> [(Hnone & _)|Hsome]];
    [congruence|].
  destruct Hsome as (i' & n & p & l & Hk' & Hi & Hn & Hl & -> & ->).
  assert (i' = i) as -> by congruence.
  pose proof (py_index_lt _ _ _ Hi) as Hlt.
  split; [done|]. split; [by rewrite length_insert|].
  exists n, p, (<[ty := VList (l ++ [child])]> p). repeat split; try done.
  - by apply list_lookup_insert_eq.
  - intros m Hm. by apply list_lookup_insert_ne.
  - intros k Hne. by apply lookup_insert_ne.
Qed.

Lemma append_to_obj_frame_witness :
  let sag1 : record := {["SagsNr" := VStr "1"]} in
  let sag2 : record := {["SagsNr" := VStr "2"]} in
  let notat : record := {["notat_id" := VStr "n"]} in
  let imap : gmap pykey Z := <[Some "2" := 1%Z]> {[Some "1" := 0%Z]} in
  let sager' := [sag1; <["notatListe" := VList [notat]]> sag2] in
  imap !! Some "2" = Some 1%Z
  ∧ append_to_obj [sag1; sag2] imap (Some "2") "notatListe" notat
    = ([], Returned (sager', imap))
  ∧ length sager' = 2
  ∧ ∃ n p p',
      py_index 2 1 = Some n
      ∧ [sag1; sag2] !! n = Some p ∧ sager' !! n = Some p'
      ∧ (∀ m, m ≠ n → sager' !! m = [sag1; sag2] !! m)
      ∧ (∀ k, k ≠ "notatListe" → p' !! k = p !! k).
Proof.
  intros sag1 sag2 notat imap sager'.
  assert (append_to_obj [sag1; sag2] imap (Some "2") "notatListe" notat
          = ([], Returned (sager', imap))) as Hrun by reflexivity.
  assert (imap !! Some "2" = Some 1%Z) as Hk by reflexivity.
  split; [exact Hk|]. split; [exact Hrun|].
  exact (proj2 (append_to_obj_frame [sag1; sag2] imap (Some "2") "notatListe"
                  notat 1%Z [] sager' imap Hk Hrun)).
Defined.

(** ** Reading and hashing a field *)

Lemma getitem_Some (r : record) f v : r !! f = Some v → getitem r f = mret v.
Proof. intros H. unfold getitem. by rewrite H. Qed.

Lemma getitem_None (r : record) f :
  r !! f = None → getitem r f = raise (KeyError (Some f)).
Proof. intros H. unfold getitem. by rewrite H. Qed.

(** Reading a field and hashing it. *)
Lemma get_key_cases {B} (r : record) f (g : pykey → M B) :
  (v ← getitem r f; k ← hash_key v; g k) =
  match r !! f with
  | None => raise (KeyError (Some f))
  | Some v =>
      match key_of v with
      | Some k => g k
      | None => raise TypeError
      end
  end.
Proof.
  unfold getitem. destruct (r !! f) as [[| |l]|]; try done.
  - rewrite bind_ret_l. unfold hash_key. by rewrite bind_ret_l.
  - rewrite bind_ret_l. unfold hash_key. by rewrite bind_ret_l.
Qed.

Lemma get_key_field {B} (r : record) f k (g : pykey → M B) :
  field_key r f = Some k →
  (v ← getitem r f; k ← hash_key v; g k) = g k.
Proof.
  unfold field_key. rewrite get_key_cases.
  destruct (r !! f) as [v|]; [|done]. simpl. by intros ->.
Qed.

Lemma get_key_returned {B} (r : record) f (g : pykey → M B) out b :
  (v ← getitem r f; k ← hash_key v; g k) = (out, Returned b) →
  ∃ k, field_key r f = Some k ∧ g k = (out, Returned b).
Proof.
  rewrite get_key_cases. unfold field_key.
  destruct (r !! f) as [v|]; [|done]. simpl.
  destruct (key_of v) as [k|]; [|done]. eauto.
Qed.

Lemma sag_step_field sager imap sag k :
  field_key sag "SagsNr" = Some k →
  sag_step (sager, imap) sag
  = ([], Returned (sager ++ [sag], <[k := Z.of_nat (length sager)]> imap)).
Proof.
  intros Hk. unfold sag_step. rewrite (get_key_field _ _ k) by done.
  rewrite length_app. simpl.
  by replace (Z.of_nat (length sager + 1) - 1)%Z with (Z.of_nat (length sager))
    by lia.
Qed.

Lemma foldM_sag_step rows : ∀ sager0 imap0,
  Forall (λ r, is_Some (field_key r "SagsNr")) rows →
  ∃ imap,
    foldM sag_step (sager0, imap0) rows = ([], Returned (sager0 ++ rows, imap))
    ∧ ∀ k, imap !! k =
           match last_position k rows with
           | Some i => Some (Z.of_nat (length sager0 + i))
           | None => imap0 !! k
           end.
Proof.
  induction rows as [|r rows IH]; intros sager0 imap0 Hall.
  - exists imap0. by rewrite app_nil_r.
  - apply Forall_cons in Hall as [[k Hk] Hall].
    destruct (IH (sager0 ++ [r]) (<[k := Z.of_nat (length sager0)]> imap0) Hall)
      as (imap & Hrun & Himap).
    exists imap. split.
    + rewrite foldM_cons, (sag_step_field _ _ _ k), bind_returned_l by done.
      by rewrite Hrun, <- app_assoc.
    + intros k'. rewrite Himap. simpl.
      destruct (last_position k' rows) as [i|].
      * rewrite length_app. simpl. do 2 f_equal. lia.
      * rewrite Hk. case_bool_decide as Heq.
        -- simplify_eq. rewrite lookup_insert_eq. do 2 f_equal. lia.
        -- rewrite lookup_insert_ne; [done|congruence].
Qed.

Lemma last_position_None k (rows : list record) :
  last_position k rows = None ↔
  ∀ j r, rows !! j = Some r → field_key r "SagsNr" ≠ Some k.
Proof.
  induction rows as [|r0 rows IH]; simpl.
  - split; [intros _ j r; by rewrite lookup_nil|done].
  - destruct (last_position k rows) as [i|] eqn:Hlast.
    + split; [done|]. intros Hno. exfalso.
      assert (Some i = None) as Habs; [|done].
      apply IH. intros j r Hj. by apply (Hno (S j)).
    + case_bool_decide as Hr0.
      * split; [done|]. intros Hno. by destruct (Hno 0 r0).
      * split; [|done]. intros _ [|j] r Hj; simplify_eq/=; [done|].
        destruct IH as [IH _]. by eapply IH.
Qed.

Lemma last_position_Some k (rows : list record) : ∀ j,
  last_position k rows = Some j ↔
  (∃ r, rows !! j = Some r ∧ field_key r "SagsNr" = Some k)
  ∧ (∀ j' r', j < j' → rows !! j' = Some r' →
              field_key r' "SagsNr" ≠ Some k).
Proof.
  induction rows as [|r0 rows IH]; intros j; simpl.
  - split; [done|]. intros [(r & Hr & _) _]. by rewrite lookup_nil in Hr.
  - destruct (last_position k rows) as [i|] eqn:Hlast.
    + destruct (IH i) as [IHi _]. destruct (IHi eq_refl) as [(r & Hr & Hk) Hafter].
      split.
      * intros [= <-]. split; [by exists r|].
        intros [|j'] r' Hlt Hj'; [lia|]. apply (Hafter j'); [lia|done].
      * intros [(r' & Hr' & Hk') Hafter']. destruct j as [|j].
        -- exfalso. by apply (Hafter' (S i) r); [lia|..].
        -- f_equal. symmetry. assert (Some i = Some j) as [= ->]; [|done].
           apply IH. split; [by exists r'|].
           intros j' r'' Hlt Hj'. apply (Hafter' (S j')); [lia|done].
    + pose proof (proj1 (last_position_None k rows) Hlast) as Hno.
      case_bool_decide as Hr0.
      * split.
        -- intros [= <-]. split; [by exists r0|].
           intros [|j'] r' Hlt Hj'; [lia|]. by apply (Hno j').
        -- intros [(r' & Hr' & Hk') _]. destruct j as [|j]; [done|].
           by destruct (Hno j r').
      * split; [done|]. intros [(r' & Hr' & Hk') _]. destruct j as [|j].
        -- by simplify_eq/=.
        -- by destruct (Hno j r').
Qed.

(** ** Pass 2: the index of [sager] *)

Lemma field_key_row_dict (row : csv_row) f :
  field_key (row_dict row) f = row !! f.
Proof.
  unfold field_key, row_dict. rewrite lookup_fmap.
  by destruct (row !! f) as [[s|]|].
Qed.

(** C2, as the code has it. A table of [sager] in which every row has a
    [SagsNr] is read without error into the list of its rows, and the index
    maps a [SagsNr] to the position of the LAST row that carries it: a later
    row overwrites the entry of an earlier one.  A child attached under that
    [SagsNr] afterwards goes to the record at that last position. *)
Theorem read_sag_last_occurrence (rows : list record) :
  Forall (λ r, is_Some (field_key r "SagsNr")) rows →
  ∃ imap,
    read_sag rows = ([], Returned (rows, imap))
    ∧ (∀ k i,
         imap !! k = Some i ↔
         ∃ j, i = Z.of_nat j
              ∧ (∃ r, rows !! j = Some r ∧ field_key r "SagsNr" = Some k)
              ∧ (∀ j' r', j < j' → rows !! j' = Some r' →
                          field_key r' "SagsNr" ≠ Some k))
    ∧ (∀ k j sager p l ty child,
         imap !! k = Some (Z.of_nat j) →
         length sager = length rows →
         sager !! j = Some p →
         children_of p ty = Some l →
         append_to_sag sager imap k ty child
         = ([], Returned (<[j := <[ty := VList (l ++ [child])]> p]> sager,
                          imap))).
Proof.
  intros Hall. destruct (foldM_sag_step rows [] ∅ Hall) as (imap & Hrun & Himap).
  exists imap. split; [done|]. split.
  - intros k i. rewrite Himap, lookup_empty. simpl. split.
    + destruct (last_position k rows) as [j|] eqn:Hlast; [|done].
      intros [= <-]. exists j. split; [done|]. by apply last_position_Some.
    + intros (j & -> & Hj). apply last_position_Some in Hj. by rewrite Hj.
  - intros k j sager p l ty child Hk Hlen Hp Hl.
    apply (append_to_obj_present _ _ _ _ _ (Z.of_nat j)); try done.
    apply py_index_nonneg. by eapply lookup_lt_Some.
Qed.

Lemma read_sag_last_occurrence_witness :
  Forall (λ r, is_Some (field_key r "SagsNr")) (DictReader sager_same_nr)
  ∧ ∃ imap,
      read_sag (DictReader sager_same_nr)
      = ([], Returned (DictReader sager_same_nr, imap))
      ∧ imap !! Some "1" = Some 1%Z.
Proof.
  assert (Forall (λ r, is_Some (field_key r "SagsNr"))
                 (DictReader sager_same_nr)) as Hall.
  { repeat constructor; by eexists. }
  split; [exact Hall|].
  destruct (read_sag_last_occurrence _ Hall) as (imap & Hrun & Himap & _).
  exists imap. split; [exact Hrun|].
  apply Himap. exists 1. split; [reflexivity|]. split.
  - eexists. split; reflexivity.
  - intros j' r' Hlt Hj'. apply lookup_lt_Some in Hj'. simpl in Hj'. lia.
Defined.

(** C2, as the spec has it, fails: in a table whose rows 0 and 1 carry the
    same [SagsNr], the index does not resolve it to position 0, the first
    occurrence. *)
Lemma read_sag_first_occurrence_counterexample :
  ¬ (∀ sager imap,
       read_sag (DictReader sager_same_nr) = ([], Returned (sager, imap)) →
       imap !! Some "1" = Some 0%Z).
Proof.
  intros Hfirst.
  specialize (Hfirst (DictReader sager_same_nr) {[Some "1" := 1%Z]} eq_refl).
  by rewrite lookup_singleton_eq in Hfirst.
Qed.

(** ** Pass 3: the split of a [dokumentcdw] row *)

Lemma split_dokumentcdw_lookup (row : record) (key : string) :
  (split_dokumentcdw row).1 !! key
  = (if decide (key ∈ cdw_keys) then None else none_to_empty <$> row !! key)
  ∧ (split_dokumentcdw row).2 !! key
    = (if decide (key ∈ cdw_keys) then none_to_empty <$> row !! key else None).
Proof.
  unfold split_dokumentcdw.
  apply (map_fold_weak_ind (λ (r : record * record) (m : record),
    r.1 !! key
    = (if decide (key ∈ cdw_keys) then None else none_to_empty <$> m !! key)
    ∧ r.2 !! key
      = (if decide (key ∈ cdw_keys) then none_to_empty <$> m !! key else None))).
  - rewrite !lookup_empty. by case_decide.
  - intros i x m [dokument cdw] Hi [IHd IHc]. simpl in *.
    destruct (decide (i = key)) as [->|Hne].
    + rewrite lookup_insert_eq. simpl.
      destruct (decide (key ∈ cdw_keys)) as [Hin|Hin].
      * rewrite bool_decide_eq_true_2 by done. simpl.
        by rewrite lookup_insert_eq.
      * rewrite bool_decide_eq_false_2 by done. simpl.
        by rewrite lookup_insert_eq.
    + rewrite (lookup_insert_ne m) by done.
      case_bool_decide; simpl; by rewrite ?lookup_insert_ne.
Qed.

(** C4. The split of a [dokumentcdw] row is a partition of its fields. The
    attachment fields are the ten names listed.  A field of the row with one
    of these names is in [cdw] and not in [dokument], every other field of
    the row is in [dokument] and not in [cdw]; it is there with the value it
    has in the row, but for [None], which is there as the empty string; and a
    name that is no field of the row is a field of neither. *)
Theorem split_dokumentcdw_partition (row : record) :
  cdw_keys
  = [ "cdw_id"; "cdwDocumentUniqueID"; "cdwCreatedDate"; "From1";
      "PostedDate"; "SendTo"; "CopyTo"; "BlindCopyTo"; "Subject"; "cdwBody" ]
  ∧ ∀ key : string,
      let value :=
        match row !! key with
        | Some VNone => Some (VStr "")
        | Some (VStr s) => Some (VStr s)
        | Some (VList l) => Some (VList l)
        | None => None
        end in
      (key ∈ cdw_keys →
         (split_dokumentcdw row).2 !! key = value
         ∧ (split_dokumentcdw row).1 !! key = None)
      ∧ (key ∉ cdw_keys →
           (split_dokumentcdw row).1 !! key = value
           ∧ (split_dokumentcdw row).2 !! key = None).
Proof.
  split; [reflexivity|]. intros key. cbn zeta.
  destruct (split_dokumentcdw_lookup row key) as [Hd Hc].
  assert (none_to_empty <$> row !! key
          = match row !! key with
            | Some VNone => Some (VStr "")
            | Some (VStr s) => Some (VStr s)
            | Some (VList l) => Some (VList l)
            | None => None
            end) as <-.
  { by destruct (row !! key) as [[|s|l]|]. }
  split; intros Hkey.
  - rewrite Hd, Hc. by rewrite !decide_True by done.
  - rewrite Hd, Hc. by rewrite !decide_False by done.
Qed.

(** ** Pass 3: documents that occur on several rows *)

(** The test of line 139 never finds the document: it looks for the id, a
    field value, in a list of dicts. *)
Lemma value_in_records_false (v : value) (l : list record) :
  value_in_records v l = false.
Proof. unfold value_in_records. by induction l. Qed.

(** C1, on the code. The same document on two rows, with the attachments
    [a] and [b]: the output holds TWO document objects under the [sag], each
    with the one attachment of its own row, and not one document object with
    both attachments. *)
Theorem cirius_dokument_twice :
  let dokument : record :=
    {["dokument_id" := VStr "d"; "SagsNr" := VStr "1"]} in
  let cdw_a : record := {["cdw_id" := VStr "a"]} in
  let cdw_b : record := {["cdw_id" := VStr "b"]} in
  cirius folder_dokument_twice
  = (Folder (Some []) (Some [sag_1])
            (Some [dokument_d_cdw_a; dokument_d_cdw_b]) (Some [])
            (Some [ <["dokumentListe" :=
                        VList [ <["cdwListe" := VList [cdw_a]]> dokument;
                                <["cdwListe" := VList [cdw_b]]> dokument ]]>
                      {["SagsNr" := VStr "1"]} ]),
     ([], Returned tt)).
Proof. reflexivity. Qed.

(** ** Pass 1: the file dictionaries *)

Lemma dict_mapping_template t : dict_mapping (Some (template_name t)) = mret t.
Proof. by destruct t. Qed.

Lemma dict_mapping_cases (name : pykey) :
  (∃ t, name = Some (template_name t) ∧ dict_mapping name = mret t)
  ∨ ((∀ t, name ≠ Some (template_name t))
     ∧ dict_mapping name = raise (KeyError name)).
Proof.
  unfold dict_mapping. repeat case_bool_decide; simplify_eq.
  - left. by exists Dokument.
  - left. by exists Cdw.
  - left. by exists Notat.
  - right. split; [|done]. by intros [].
Qed.

Lemma files_of_set_files_of t t' d fd :
  files_of t (set_files_of t' d fd) = if decide (t = t') then d else files_of t fd.
Proof. by destruct t, t'. Qed.

(** A row with a recognised kind and an id goes to the end of the list of
    its key. *)
Lemma fil_step_file fd (fil : record) t id :
  is_file_of t id fil →
  fil_step fd fil
  = ([], Returned
           (set_files_of t
              (<[id := default [] (files_of t fd !! id) ++ [fil]]>
                 (files_of t fd)) fd)).
Proof.
  intros [Hname Hid]. unfold fil_step.
  rewrite (get_key_field _ _ _ _ Hname), dict_mapping_template, bind_ret_l.
  rewrite (get_key_field _ _ _ _ Hid).
  destruct (files_of t fd !! id) as [l|] eqn:Hl; simpl.
  - by rewrite Hl.
  - by rewrite lookup_insert_eq, insert_insert_eq.
Qed.

(** What [fil_step] does on any row: nothing is printed, and the row is
    either filed or the step raises. *)
Lemma fil_step_cases fd (fil : record) :
  (∃ t id, is_file_of t id fil)
  ∨ ((∀ t id, ¬ is_file_of t id fil) ∧ ∃ e, fil_step fd fil = ([], Raised e)).
Proof.
  unfold fil_step. rewrite get_key_cases.
  destruct (fil !! "notes_template_name") as [v|] eqn:Hv.
  2: { right. split; [|by eexists]. intros t id [Hname _].
       unfold field_key in Hname. by rewrite Hv in Hname. }
  destruct (key_of v) as [name|] eqn:Hname.
  2: { right. split; [|by eexists]. intros t id [Hname' _].
       unfold field_key in Hname'. rewrite Hv in Hname'. simpl in Hname'.
       congruence. }
  destruct (dict_mapping_cases name) as [(t & -> & ->)|[Hno ->]].
  2: { right. split; [|by eexists]. intros t id [Hname' _].
       unfold field_key in Hname'. rewrite Hv in Hname'. simpl in Hname'.
       apply (Hno t). congruence. }
  rewrite bind_ret_l, get_key_cases.
  destruct (fil !! "notes_template_id") as [w|] eqn:Hw.
  2: { right. split; [|by eexists]. intros t' id [_ Hid].
       unfold field_key in Hid. by rewrite Hw in Hid. }
  destruct (key_of w) as [id|] eqn:Hid.
  2: { right. split; [|by eexists]. intros t' id [_ Hid'].
       unfold field_key in Hid'. rewrite Hw in Hid'. simpl in Hid'.
       congruence. }
  left. exists t, id. unfold is_file_of, field_key. by rewrite Hv, Hw.
Qed.

Lemma template_name_inj t t' : template_name t = template_name t' → t = t'.
Proof. by destruct t, t'. Qed.

Lemma is_file_of_inj t id t' id' (fil : record) :
  is_file_of t id fil → is_file_of t' id' fil → t = t' ∧ id = id'.
Proof.
  intros [Hn Hi] [Hn' Hi']. split; [|congruence].
  apply template_name_inj. congruence.
Qed.

Lemma foldM_fil_step (rows : list record) : ∀ fd0,
  Forall (λ r, ∃ t id, is_file_of t id r) rows →
  ∃ fd,
    foldM fil_step fd0 rows = ([], Returned fd)
    ∧ ∀ t id,
        files_of t fd !! id =
        match files_matching t id rows with
        | [] => files_of t fd0 !! id
        | l => Some (default [] (files_of t fd0 !! id) ++ l)
        end.
Proof.
  induction rows as [|r rows IH]; intros fd0 Hall.
  - by exists fd0.
  - apply Forall_cons in Hall as [(t0 & id0 & Hr) Hall].
    rewrite foldM_cons, (fil_step_file fd0 _ _ _ Hr), bind_returned_l.
    destruct (IH (set_files_of t0
                    (<[id0 := default [] (files_of t0 fd0 !! id0) ++ [r]]>
                       (files_of t0 fd0)) fd0) Hall) as (fd & -> & Hfd).
    exists fd. split; [done|].
    intros t id. rewrite Hfd, files_of_set_files_of.
    unfold files_matching. rewrite filter_cons.
    destruct (decide (is_file_of t id r)) as [Hr'|Hr'].
    + destruct (is_file_of_inj _ _ _ _ _ Hr Hr') as [-> ->].
      rewrite decide_True, lookup_insert_eq by done. simpl.
      destruct (filter _ rows); [done|]. by rewrite <- app_assoc.
    + assert ((if decide (t = t0)
               then <[id0 := default [] (files_of t0 fd0 !! id0) ++ [r]]>
                      (files_of t0 fd0)
               else files_of t fd0) !! id = files_of t fd0 !! id) as ->; [|done].
      case_decide as Ht; [|done]. subst t.
      apply lookup_insert_ne. by intros ->.
Qed.

Lemma read_fil_returned (rows : list record) :
  Forall (λ r, ∃ t id, is_file_of t id r) rows →
  ∃ fd,
    read_fil rows = ([], Returned fd)
    ∧ ∀ t id, files_of t fd !! id = files_entry (files_matching t id rows).
Proof.
  intros Hall. destruct (foldM_fil_step rows (FileDicts ∅ ∅ ∅) Hall)
    as (fd & Hrun & Hfd).
  exists fd. split; [done|]. intros t id. rewrite Hfd.
  assert (files_of t (FileDicts ∅ ∅ ∅) !! id = None) as ->
    by (destruct t; apply lookup_empty).
  by destruct (files_matching t id rows).
Qed.

Lemma foldM_fil_step_raises (rows : list record) : ∀ fd0,
  Exists (λ r, ∀ t id, ¬ is_file_of t id r) rows →
  ∃ e, foldM fil_step fd0 rows = ([], Raised e).
Proof.
  induction rows as [|r rows IH]; intros fd0 Hex; [by inversion Hex|].
  rewrite foldM_cons.
  destruct (fil_step_cases fd0 r) as [(t & id & Hr)|[_ [e ->]]];
    [|by exists e].
  rewrite (fil_step_file fd0 _ _ _ Hr), bind_returned_l.
  apply IH. apply Exists_cons in Hex as [Hno|Hex]; [|done].
  by destruct (Hno t id).
Qed.

(** Either every row of [fil.csv] can be filed and the pass returns, or the
    pass raises; it prints nothing. *)
Lemma foldM_fil_step_cases (rows : list record) : ∀ fd0,
  Forall (λ r, ∃ t id, is_file_of t id r) rows
  ∨ ∃ e, foldM fil_step fd0 rows = ([], Raised e).
Proof.
  induction rows as [|r rows IH]; intros fd0; [by left|].
  rewrite foldM_cons.
  destruct (fil_step_cases fd0 r) as [(t & id & Hr)|[_ [e ->]]];
    [|right; by exists e].
  rewrite (fil_step_file fd0 _ _ _ Hr), bind_returned_l.
  destruct (IH (set_files_of t
                  (<[id := default [] (files_of t fd0 !! id) ++ [r]]>
                     (files_of t fd0)) fd0)) as [Hall|Hraise]; [|by right].
  left. constructor; [by exists t, id|done].
Qed.

(** ** Runs that abort *)

Lemma build_sager_read_fil_raises fil sag dokumentcdw notat out e :
  read_fil (DictReader fil) = (out, Raised e) →
  build_sager fil sag dokumentcdw notat = (out, Raised e).
Proof. intros H. unfold build_sager. by rewrite H. Qed.

Lemma cirius_raises fs fil sag dokumentcdw notat out e :
  fil_csv fs = Some fil → sag_csv fs = Some sag →
  dokumentcdw_csv fs = Some dokumentcdw → notat_csv fs = Some notat →
  build_sager fil sag dokumentcdw notat = (out, Raised e) →
  cirius fs = (fs, (out, Raised e)).
Proof. intros Hf Hs Hd Hn Hb. unfold cirius. by rewrite Hf, Hs, Hd, Hn, Hb. Qed.

Lemma cirius_returned fs fs' out :
  cirius fs = (fs', (out, Returned tt)) →
  ∃ fil sag dokumentcdw notat sager,
    fs = Folder (Some fil) (Some sag) (Some dokumentcdw) (Some notat)
                (cirius_json fs)
    ∧ build_sager fil sag dokumentcdw notat = (out, Returned sager)
    ∧ fs' = Folder (Some fil) (Some sag) (Some dokumentcdw) (Some notat)
                   (Some sager).
Proof.
  destruct fs as [[fil|] [sag|] [dokumentcdw|] [notat|] json];
    unfold cirius; simpl; try done.
  destruct (build_sager fil sag dokumentcdw notat) as [out' [sager|e]] eqn:Hb;
    [|done].
  intros [= <- <-]. by exists fil, sag, dokumentcdw, notat, sager.
Qed.

(** C6. A row of [fil.csv] whose [notes_template_name] is none of
    ["dokument"], ["cdw"] and ["notat"] makes the loop body raise a
    [KeyError], whatever the dictionaries hold by then; and a run over a
    table that has such a row raises: it prints nothing, writes nothing and
    leaves the folder as it was. *)
Theorem unknown_template_aborts fs fil sag dokumentcdw notat (row : csv_row) :
  fil_csv fs = Some fil → sag_csv fs = Some sag →
  dokumentcdw_csv fs = Some dokumentcdw → notat_csv fs = Some notat →
  row ∈ fil →
  row !! "notes_template_name" ≠ Some (Some "dokument") →
  row !! "notes_template_name" ≠ Some (Some "cdw") →
  row !! "notes_template_name" ≠ Some (Some "notat") →
  (∀ fd, fil_step fd (row_dict row)
         = ([], Raised (KeyError (default (Some "notes_template_name")
                                          (row !! "notes_template_name")))))
  ∧ ∃ e, cirius fs = (fs, ([], Raised e)).
Proof.
  intros Hf Hs Hd Hn Hrow Hdok Hcdw Hnot. split.
  - intros fd. unfold fil_step. rewrite get_key_cases.
    unfold row_dict. rewrite lookup_fmap.
    destruct (row !! "notes_template_name") as [name|]; [|done]. simpl.
    assert (key_of (cell name) = Some name) as -> by by destruct name.
    destruct (dict_mapping_cases name) as [(t & -> & _)|[_ ->]]; [|done].
    by destruct t.
  - assert (∃ e, read_fil (DictReader fil) = ([], Raised e)) as [e He].
    { apply foldM_fil_step_raises. apply Exists_exists.
      exists (row_dict row). split.
      - by apply list_elem_of_fmap_2.
      - intros t id [Hname _]. rewrite field_key_row_dict in Hname.
        by destruct t. }
    exists e. eapply cirius_raises; [done..|].
    by apply build_sager_read_fil_raises.
Qed.

Lemma unknown_template_aborts_witness :
  fil_csv folder_unknown_template = Some [fil_of_sag]
  ∧ fil_of_sag ∈ [fil_of_sag]
  ∧ fil_of_sag !! "notes_template_name" = Some (Some "sag")
  ∧ (∀ fd, fil_step fd (row_dict fil_of_sag)
           = ([], Raised (KeyError (Some "sag"))))
  ∧ ∃ e, cirius folder_unknown_template
         = (folder_unknown_template, ([], Raised e)).
Proof.
  split; [reflexivity|]. split; [by apply list_elem_of_here|].
  split; [reflexivity|].
  apply (unknown_template_aborts folder_unknown_template [fil_of_sag] [sag_1]
           [] [] fil_of_sag); try reflexivity; try discriminate.
  apply list_elem_of_here.
Defined.

(** C7. When one of the four input files is missing the run raises at
    once: nothing is printed and the folder is as it was.  Every run that
    raises leaves the folder as it was, so no output file is written; and a
    run that returns has written [cirius.json] once, with the whole list of
    [sager] that the passes built. *)
Theorem cirius_output_only_when_built fs :
  (fil_csv fs = None ∨ sag_csv fs = None
   ∨ dokumentcdw_csv fs = None ∨ notat_csv fs = None →
   cirius fs = (fs, ([], Raised RequiredFilesMissing)))
  ∧ (∀ out e, (cirius fs).2 = (out, Raised e) → (cirius fs).1 = fs)
  ∧ (∀ out, (cirius fs).2 = (out, Returned tt) →
       ∃ fil sag dokumentcdw notat sager,
         fs = Folder (Some fil) (Some sag) (Some dokumentcdw) (Some notat)
                     (cirius_json fs)
         ∧ build_sager fil sag dokumentcdw notat = (out, Returned sager)
         ∧ (cirius fs).1
           = Folder (Some fil) (Some sag) (Some dokumentcdw) (Some notat)
                    (Some sager)).
Proof.
  destruct fs as [[fil|] [sag|] [dokumentcdw|] [notat|] json];
    unfold cirius; simpl.
  2-16: (split; [done|]; split; [done|]; intros out [=]).
  destruct (build_sager fil sag dokumentcdw notat) as [out [sager|e]] eqn:Hb;
    simpl.
  - split; [by intros [?|[?|[?|?]]]|]. split; [done|].
    intros out' [= <-]. by exists fil, sag, dokumentcdw, notat, sager.
  - split; [by intros [?|[?|[?|?]]]|]. split; [done|]. by intros out' [=].
Qed.

Lemma cirius_output_only_when_built_witness :
  notat_csv folder_without_notat = None
  ∧ cirius folder_without_notat
    = (folder_without_notat, ([], Raised RequiredFilesMissing)).
Proof.
  split; [reflexivity|].
  apply (proj1 (cirius_output_only_when_built folder_without_notat)).
  right. right. right. reflexivity.
Defined.

(** ** The order of the [sager] *)

Lemma foldM_returned_inv {A S} (f : S → A → M S) (I : S → Prop) l :
  ∀ s out s',
    I s →
    (∀ s x out s', x ∈ l → I s → f s x = (out, Returned s') → I s') →
    foldM f s l = (out, Returned s') → I s'.
Proof.
  induction l as [|x l IH]; intros s out s' Hs Hstep Hrun.
  - inversion Hrun. by subst.
  - rewrite foldM_cons in Hrun.
    apply bind_returned in Hrun as (out1 & s1 & out2 & Hx & Hl & ->).
    eapply IH; [|intros; eapply Hstep; [by right|done..]|done].
    eapply Hstep; [by left|done..].
Qed.

Lemma same_fields_but_refl tys p : same_fields_but tys p p.
Proof. by intros k Hk. Qed.

Lemma same_fields_but_trans tys p1 p2 p3 :
  same_fields_but tys p1 p2 → same_fields_but tys p2 p3 →
  same_fields_but tys p1 p3.
Proof. intros H12 H23 k Hk. by rewrite H23, H12. Qed.

Lemma append_to_obj_same_fields tys parents imap key ty child out parents' imap' :
  ty ∈ tys →
  append_to_obj parents imap key ty child = (out, Returned (parents', imap')) →
  Forall2 (same_fields_but tys) parents parents' ∧ imap' = imap.
Proof.
  intros Hty Hrun.
  apply append_to_obj_returned in Hrun as [-> [(_ & _ & ->)|Hsome]].
  - split; [|done]. by apply Forall2_same_length_lookup_2; [|intros; simplify_eq].
  - destruct Hsome as (i & n & p & l & _ & _ & Hn & _ & _ & ->).
    split; [|done].
    apply Forall2_same_length_lookup_2; [by rewrite length_insert|].
    intros m x y Hx Hy. destruct (decide (m = n)) as [->|Hne].
    + rewrite list_lookup_insert_eq in Hy by by eapply lookup_lt_Some.
      simplify_eq. intros k Hk. apply lookup_insert_ne. by intros ->.
    + rewrite list_lookup_insert_ne in Hy by done. by simplify_eq.
Qed.

Lemma Forall2_same_fields_refl tys (l : list record) :
  Forall2 (same_fields_but tys) l l.
Proof. induction l; constructor; [apply same_fields_but_refl|done]. Qed.

Lemma Forall2_same_fields_trans tys (l1 l2 l3 : list record) :
  Forall2 (same_fields_but tys) l1 l2 → Forall2 (same_fields_but tys) l2 l3 →
  Forall2 (same_fields_but tys) l1 l3.
Proof. apply Forall2_trans. apply same_fields_but_trans. Qed.

Lemma dokument_step_same_fields tys sager imap dokument out sager' imap' :
  "dokumentListe" ∈ tys →
  dokument_step (sager, imap) dokument = (out, Returned (sager', imap')) →
  Forall2 (same_fields_but tys) sager sager' ∧ imap' = imap.
Proof.
  intros Hty Hrun. unfold dokument_step in Hrun.
  apply get_key_returned in Hrun as (k & _ & Hrun).
  by eapply append_to_obj_same_fields.
Qed.

Lemma notat_step_same_fields tys fd sager imap notat out sager' imap' :
  "notatListe" ∈ tys →
  notat_step fd (sager, imap) notat = (out, Returned (sager', imap')) →
  Forall2 (same_fields_but tys) sager sager' ∧ imap' = imap.
Proof.
  intros Hty Hrun. unfold notat_step in Hrun.
  apply get_key_returned in Hrun as (k & _ & Hrun).
  apply get_key_returned in Hrun as (k' & _ & Hrun).
  by eapply append_to_obj_same_fields.
Qed.

Lemma foldM_sag_step_returned (rows : list record) : ∀ sager0 imap0 out st,
  foldM sag_step (sager0, imap0) rows = (out, Returned st) →
  out = [] ∧ st.1 = sager0 ++ rows
  ∧ Forall (λ r, is_Some (field_key r "SagsNr")) rows.
Proof.
  induction rows as [|r rows IH]; intros sager0 imap0 out st Hrun.
  - inversion Hrun. subst. simpl. by rewrite app_nil_r.
  - rewrite foldM_cons in Hrun.
    apply bind_returned in Hrun as (out1 & [s1 i1] & out2 & Hr & Hrows & ->).
    unfold sag_step in Hr. apply get_key_returned in Hr as (k & Hk & Hr).
    inversion Hr. subst. apply IH in Hrows as (-> & -> & Hall).
    split; [reflexivity|]. split; [by rewrite <- app_assoc|].
    constructor; [by eexists|done].
Qed.

(** The passes of a run that returns. *)
Lemma build_sager_returned fil sag dokumentcdw notat out sager :
  build_sager fil sag dokumentcdw notat = (out, Returned sager) →
  ∃ fd imap0 out3 dokumenter imapd out4 sager1 imap1 out5 imap2,
    read_fil (DictReader fil) = ([], Returned fd)
    ∧ read_sag (DictReader sag) = ([], Returned (DictReader sag, imap0))
    ∧ read_dokumentcdw fd (DictReader dokumentcdw)
      = (out3, Returned (dokumenter, imapd))
    ∧ foldM dokument_step (DictReader sag, imap0) dokumenter
      = (out4, Returned (sager1, imap1))
    ∧ foldM (notat_step fd) (sager1, imap1) (DictReader notat)
      = (out5, Returned (sager, imap2))
    ∧ out = out3 ++ out4 ++ out5.
Proof.
  unfold build_sager. intros Hrun.
  apply bind_returned in Hrun as (out1 & fd & o1 & Hfil & Hrun & ->).
  apply bind_returned in Hrun as (out2 & [sager0 imap0] & o2 & Hsag & Hrun & ->).
  apply bind_returned in Hrun
    as (out3 & [dokumenter imapd] & o3 & Hdok & Hrun & ->).
  apply bind_returned in Hrun
    as (out4 & [sager1 imap1] & o4 & Hatt & Hrun & ->).
  apply bind_returned in Hrun
    as (out5 & [sager2 imap2] & o5 & Hnot & Hrun & ->).
  inversion Hrun; subst.
  assert (out1 = []) as ->.
  { destruct (foldM_fil_step_cases (DictReader fil) (FileDicts ∅ ∅ ∅))
      as [Hall|[e He]].
    - destruct (read_fil_returned _ Hall) as (fd' & Hfd' & _). congruence.
    - unfold read_fil in Hfil. congruence. }
  pose proof (foldM_sag_step_returned _ _ _ _ _ Hsag) as (-> & Hs & _).
  simpl in Hs. subst sager0.
  exists fd, imap0, out3, dokumenter, imapd, out4, sager1, imap1, out5, imap2.
  repeat split; try done. simpl. by rewrite app_nil_r.
Qed.

Lemma build_sager_same_fields fil sag dokumentcdw notat out sager :
  build_sager fil sag dokumentcdw notat = (out, Returned sager) →
  Forall2 (same_fields_but ["dokumentListe"; "notatListe"])
          (DictReader sag) sager.
Proof.
  intros Hrun. apply build_sager_returned in Hrun
    as (fd & imap0 & out3 & dokumenter & imapd & out4 & sager1 & imap1 & out5
        & imap2 & _ & _ & _ & Hdok & Hnot & _).
  assert (Forall2 (same_fields_but ["dokumentListe"; "notatListe"])
                  (DictReader sag) sager1) as H1.
  { apply (foldM_returned_inv dokument_step
             (λ st, Forall2 (same_fields_but ["dokumentListe"; "notatListe"])
                            (DictReader sag) st.1)
             dokumenter (DictReader sag, imap0) out4 (sager1, imap1)
             (Forall2_same_fields_refl _ _))
      in Hdok; [done|].
    intros [s i] x o [s' i'] _ Hs Hx. simpl in *.
    eapply Forall2_same_fields_trans; [done|].
    eapply dokument_step_same_fields; [|done]. set_solver. }
  apply (foldM_returned_inv (notat_step fd)
           (λ st, Forall2 (same_fields_but ["dokumentListe"; "notatListe"])
                          (DictReader sag) st.1)
           (DictReader notat) (sager1, imap1) out5 (sager, imap2) H1)
    in Hnot; [done|].
  intros [s i] x o [s' i'] _ Hs Hx. simpl in *.
  eapply Forall2_same_fields_trans; [done|].
  eapply notat_step_same_fields; [|done]. set_solver.
Qed.

(** C8. In a run that returns, the output array has one case object for
    each row of [sag.csv], at the row's position, and the object is the row
    up to the two child lists, whatever [dokumentcdw.csv] and [notat.csv]
    hold and in whatever order. *)
Theorem cirius_keeps_sag_order fs fs' sag out :
  sag_csv fs = Some sag →
  cirius fs = (fs', (out, Returned tt)) →
  ∃ sager,
    cirius_json fs' = Some sager
    ∧ length sager = length sag
    ∧ ∀ i row,
        sag !! i = Some row →
        ∃ c, sager !! i = Some c
             ∧ ∀ k : string, k ≠ "dokumentListe" → k ≠ "notatListe" →
                             c !! k = row_dict row !! k.
Proof.
  intros Hsag Hrun.
  apply cirius_returned in Hrun
    as (fil & sag' & dokumentcdw & notat & sager & Hfs & Hb & ->).
  rewrite Hfs in Hsag. simpl in Hsag. simplify_eq.
  exists sager. split; [done|].
  pose proof (build_sager_same_fields _ _ _ _ _ _ Hb) as Hsame.
  split.
  - apply Forall2_length in Hsame. unfold DictReader in Hsame.
    by rewrite length_fmap in Hsame.
  - intros i row Hrow.
    assert (DictReader sag !! i = Some (row_dict row)) as Hi.
    { unfold DictReader. by rewrite list_lookup_fmap, Hrow. }
    destruct (Forall2_lookup_l _ _ _ _ _ Hsame Hi) as (c & Hc & Hfields).
    exists c. split; [done|]. intros k Hk1 Hk2. apply Hfields.
    rewrite !not_elem_of_cons. split; [done|]. split; [done|].
    apply not_elem_of_nil.
Qed.

Lemma cirius_keeps_sag_order_witness :
  let fs' := Folder (Some []) (Some [sag_1; sag_2])
                    (Some [dokument_of_2; dokument_of_1])
                    (Some [notat_of_2; notat_of_1])
                    (Some run_reverse_order) in
  sag_csv folder_reverse_order = Some [sag_1; sag_2]
  ∧ cirius folder_reverse_order = (fs', ([], Returned tt))
  ∧ ∃ sager,
      cirius_json fs' = Some sager
      ∧ length sager = 2
      ∧ ∀ i row,
          [sag_1; sag_2] !! i = Some row →
          ∃ c, sager !! i = Some c
               ∧ ∀ k : string, k ≠ "dokumentListe" → k ≠ "notatListe" →
                               c !! k = row_dict row !! k.
Proof.
  intros fs'.
  assert (cirius folder_reverse_order = (fs', ([], Returned tt))) as Hrun
    by reflexivity.
  split; [reflexivity|]. split; [exact Hrun|].
  exact (cirius_keeps_sag_order folder_reverse_order fs' [sag_1; sag_2] []
           eq_refl Hrun).
Defined.

(** ** Pass 3 and pass 4, step by step *)

(** The body of the loop over [dokumentcdw.csv], case by case. *)
Lemma dokumentcdw_step_cases fd dokumenter imap (row : record) :
  dokumentcdw_step fd (dokumenter, imap) row =
  match (split_dokumentcdw row).1 !! "dokument_id" with
  | None => raise (KeyError (Some "dokument_id"))
  | Some v =>
      match key_of v with
      | None => raise TypeError
      | Some id =>
          let dokumenter1 :=
            dokumenter
            ++ [add_filListe (dokumentFiles fd) id (split_dokumentcdw row).1] in
          let imap1 := <[id := Z.of_nat (length dokumenter)]> imap in
          match (split_dokumentcdw row).2 !! "cdw_id" with
          | None => raise (KeyError (Some "cdw_id"))
          | Some w =>
              if ne_empty_str w then
                match key_of w with
                | None => raise TypeError
                | Some idc =>
                    match row !! "dokument_id" with
                    | None => raise (KeyError (Some "dokument_id"))
                    | Some u =>
                        match key_of u with
                        | None => raise TypeError
                        | Some dokId =>
                            append_to_obj dokumenter1 imap1 dokId "cdwListe"
                              (add_filListe (cdwFiles fd) idc
                                 (split_dokumentcdw row).2)
                        end
                    end
                end
              else mret (dokumenter1, imap1)
          end
      end
  end.
Proof.
  unfold dokumentcdw_step.
  destruct (split_dokumentcdw row) as [dokument cdw]. cbn [fst snd].
  destruct (dokument !! "dokument_id") as [v|] eqn:Hv;
    [rewrite (getitem_Some _ _ _ Hv)|by rewrite (getitem_None _ _ Hv)].
  rewrite bind_ret_l, value_in_records_false. cbn [negb].
  destruct v as [|s|l]; cbn [hash_key key_of]; [| |done].
  all: rewrite !bind_ret_l.
  all: replace (Z.of_nat (length (dokumenter ++ [add_filListe
         (dokumentFiles fd) _ dokument])) - 1)%Z
         with (Z.of_nat (length dokumenter))
         by (rewrite length_app; simpl; lia).
  all: destruct (cdw !! "cdw_id") as [w|] eqn:Hw;
    [rewrite (getitem_Some _ _ _ Hw)|by rewrite (getitem_None _ _ Hw)].
  all: rewrite bind_ret_l.
  all: destruct (ne_empty_str w); [|done].
  all: destruct w as [|s'|l']; cbn [hash_key key_of]; [| |done].
  all: rewrite bind_ret_l.
  all: unfold append_to_dokument; apply get_key_cases.
Qed.

(** Every row of [dokumentcdw.csv] adds a document record, whether its
    [dokument_id] was seen before or not. *)
Lemma dokumentcdw_step_length fd dokumenter imap (row : record) out dokumenter'
    imap' :
  dokumentcdw_step fd (dokumenter, imap) row
  = (out, Returned (dokumenter', imap')) →
  length dokumenter' = S (length dokumenter).
Proof.
  rewrite dokumentcdw_step_cases.
  destruct (_ !! "dokument_id") as [v|]; [|done].
  destruct (key_of v) as [id|]; [|done]. cbn zeta.
  destruct (_ !! "cdw_id") as [w|]; [|done].
  destruct (ne_empty_str w).
  2: { intros Hrun. inversion Hrun. rewrite length_app. simpl. lia. }
  destruct (key_of w) as [idc|]; [|done].
  destruct (row !! "dokument_id") as [u|]; [|done].
  destruct (key_of u) as [dokId|]; [|done].
  intros Hrun. apply append_to_obj_returned in Hrun as [_ [(_ & _ & ->)|Hsome]].
  - rewrite length_app. simpl. lia.
  - destruct Hsome as (i & n & p & l & _ & _ & _ & _ & _ & ->).
    rewrite length_insert, length_app. simpl. lia.
Qed.

Lemma read_dokumentcdw_length fd (rows : list record) out dokumenter imap :
  read_dokumentcdw fd rows = (out, Returned (dokumenter, imap)) →
  length dokumenter = length rows.
Proof.
  unfold read_dokumentcdw.
  assert (∀ d i, foldM (dokumentcdw_step fd) (d, i) rows
                 = (out, Returned (dokumenter, imap)) →
                 length dokumenter = length d + length rows) as Hgen.
  { revert out. induction rows as [|r rows IH]; intros out d i Hrun.
    - inversion Hrun. subst. simpl. lia.
    - rewrite foldM_cons in Hrun.
      apply bind_returned in Hrun as (o1 & [d1 i1] & o2 & Hr & Hrows & ->).
      apply dokumentcdw_step_length in Hr. apply IH in Hrows. simpl. lia. }
  intros Hrun. by apply Hgen in Hrun.
Qed.

(** ** File lists in the output *)

Lemma row_dict_lookup (row : csv_row) (k : string) :
  row_dict row !! k = cell <$> row !! k.
Proof. unfold row_dict. apply lookup_fmap. Qed.


Lemma add_filListe_lookup (files : gmap pykey (list record)) id obj
    (k : string) :
  add_filListe files id obj !! k
  = if decide (k = "filListe")
    then match files !! id with
         | Some l => Some (VList l)
         | None => obj !! "filListe"
         end
    else obj !! k.
Proof.
  unfold add_filListe. destruct (files !! id) as [l|].
  - case_decide as Hk; [subst; apply lookup_insert_eq|].
    by apply lookup_insert_ne.
  - case_decide; by subst.
Qed.







(** A property of the parents that every attach of [child] keeps is kept by
    [append_to_obj]. *)
Lemma append_to_obj_Forall (R : record → Prop) parents imap key ty child out
    parents' imap' :
  (∀ p l, R p → children_of p ty = Some l →
          R (<[ty := VList (l ++ [child])]> p)) →
  Forall R parents →
  append_to_obj parents imap key ty child = (out, Returned (parents', imap')) →
  Forall R parents'.
Proof.
  intros Hstep Hall Hrun.
  apply append_to_obj_returned in Hrun as [_ [(_ & _ & ->)|Hsome]]; [done|].
  destruct Hsome as (i & n & p & l & _ & _ & Hn & Hl & _ & ->).
  apply Forall_insert; [done|]. apply Hstep; [|done].
  by eapply Forall_lookup_1.
Qed.


Lemma dokument_id_not_cdw_key : "dokument_id" ∉ cdw_keys.
Proof. by apply (bool_decide_eq_false_1 ("dokument_id" ∈ cdw_keys)). Qed.

Lemma cdw_id_cdw_key : "cdw_id" ∈ cdw_keys.
Proof. by apply (bool_decide_eq_true_1 ("cdw_id" ∈ cdw_keys)). Qed.

Lemma none_to_empty_cell c : none_to_empty (cell c) = VStr (default "" c).
Proof. by destruct c. Qed.

(** The two halves of a CSV row hold strings only. *)
Lemma split_row_dict_lookup (row : csv_row) (k : string) :
  (split_dokumentcdw (row_dict row)).1 !! k
  = (if decide (k ∈ cdw_keys) then None
     else (λ c, VStr (default "" c)) <$> row !! k)
  ∧ (split_dokumentcdw (row_dict row)).2 !! k
    = (if decide (k ∈ cdw_keys)
       then (λ c, VStr (default "" c)) <$> row !! k else None).
Proof.
  destruct (split_dokumentcdw_lookup (row_dict row) k) as [-> ->].
  rewrite row_dict_lookup.
  destruct (row !! k) as [c|]; simpl; [|done].
  by rewrite none_to_empty_cell.
Qed.

Lemma split_row_dict_not_list (row : csv_row) (k : string) l :
  (split_dokumentcdw (row_dict row)).1 !! k ≠ Some (VList l)
  ∧ (split_dokumentcdw (row_dict row)).2 !! k ≠ Some (VList l).
Proof.
  destruct (split_row_dict_lookup row k) as [-> ->].
  case_decide; by destruct (row !! k).
Qed.












(** The file list of a document that is on two rows goes on both of the
    document objects that line 139 lets through. *)
Lemma cirius_filListe_on_each_copy :
  let dokument : record :=
    <["filListe" := VList [row_dict fil_of_d]]>
      {["dokument_id" := VStr "d"; "SagsNr" := VStr "1"]} in
  cirius_json (cirius folder_dokument_twice_with_file).1
  = Some [ <["dokumentListe" :=
               VList [ <["cdwListe" := VList [{["cdw_id" := VStr "a"]}]]>
                         dokument;
                       <["cdwListe" := VList [{["cdw_id" := VStr "b"]}]]>
                         dokument ]]>
             {["SagsNr" := VStr "1"]} ].
Proof. reflexivity. Qed.

(** ** Files that nothing refers to *)

Lemma bind_ext {A B} (m : M A) (f g : A → M B) :
  (∀ a, f a = g a) → m ≫= f = m ≫= g.
Proof.
  intros Hfg. destruct m as [out [a|e]]; [|done].
  munfold. by rewrite Hfg.
Qed.

Lemma foldM_ext {A S} (f g : S → A → M S) l :
  (∀ s x, x ∈ l → f s x = g s x) → ∀ s, foldM f s l = foldM g s l.
Proof.
  induction l as [|x l IH]; intros Hfg s; [done|].
  rewrite !foldM_cons, Hfg by by left.
  apply bind_ext. intros s'. apply IH.
  intros s'' y Hy. apply Hfg. by right.
Qed.

(** Whether [fil_step] raises on a row, and what, does not depend on the
    dictionaries. *)
Lemma fil_step_raises_any fd fd' (fil : record) out e :
  fil_step fd fil = (out, Raised e) → fil_step fd' fil = (out, Raised e).
Proof.
  destruct (fil_step_cases fd fil) as [(t & id & Hfile)|[Hno _]].
  - by rewrite (fil_step_file fd _ _ _ Hfile).
  - unfold fil_step. rewrite !get_key_cases.
    destruct (fil !! "notes_template_name") as [v|] eqn:Hv; [|done].
    destruct (key_of v) as [name|] eqn:Hname; [|done].
    destruct (dict_mapping_cases name) as [(t & -> & ->)|[_ ->]]; [|done].
    rewrite !bind_ret_l, !get_key_cases.
    destruct (fil !! "notes_template_id") as [w|] eqn:Hw; [|done].
    destruct (key_of w) as [id|] eqn:Hid; [|done].
    destruct (Hno t id). unfold is_file_of, field_key. by rewrite Hv, Hw.
Qed.

(** The two ways [fil.csv] is read: every row is filed, or the first row
    that cannot be filed raises. *)
Lemma foldM_fil_step_same (rows : list record) : ∀ fd fd',
  (Forall (λ r, ∃ t id, is_file_of t id r) rows)
  ∨ ∃ e, foldM fil_step fd rows = ([], Raised e)
         ∧ foldM fil_step fd' rows = ([], Raised e).
Proof.
  induction rows as [|r rows IH]; intros fd fd'; [by left|].
  rewrite !foldM_cons.
  destruct (fil_step_cases fd r) as [(t & id & Hr)|[_ [e He]]].
  - rewrite (fil_step_file fd _ _ _ Hr), (fil_step_file fd' _ _ _ Hr).
    rewrite !bind_returned_l.
    destruct (IH (set_files_of t
                    (<[id := default [] (files_of t fd !! id) ++ [r]]>
                       (files_of t fd)) fd)
                 (set_files_of t
                    (<[id := default [] (files_of t fd' !! id) ++ [r]]>
                       (files_of t fd')) fd')) as [Hall|Hraise]; [|by right].
    left. constructor; [by exists t, id|done].
  - right. exists e. by rewrite (fil_step_raises_any _ fd' _ _ _ He), He.
Qed.

Lemma Forall_app_cons_remove {A} (P : A → Prop) l1 x l2 :
  P x → (Forall P (l1 ++ x :: l2) ↔ Forall P (l1 ++ l2)).
Proof.
  intros Hx. rewrite !Forall_app, Forall_cons. tauto.
Qed.

Lemma foldM_fil_step_remove (fil1 fil2 : list record) (r : record) t id :
  is_file_of t id r →
  ∀ fd fd',
    Forall (λ r, ∃ t id, is_file_of t id r) (fil1 ++ fil2)
    ∨ ∃ e, foldM fil_step fd (fil1 ++ r :: fil2) = ([], Raised e)
           ∧ foldM fil_step fd' (fil1 ++ fil2) = ([], Raised e).
Proof.
  intros Hr. induction fil1 as [|x fil1 IH]; intros fd fd'; cbn [app].
  - rewrite foldM_cons, (fil_step_file fd _ _ _ Hr), bind_returned_l.
    apply foldM_fil_step_same.
  - rewrite !foldM_cons.
    destruct (fil_step_cases fd x) as [(tx & idx & Hx)|[_ [e He]]].
    + rewrite (fil_step_file fd _ _ _ Hx), (fil_step_file fd' _ _ _ Hx).
      rewrite !bind_returned_l.
      destruct (IH (set_files_of tx
                      (<[idx := default [] (files_of tx fd !! idx) ++ [x]]>
                         (files_of tx fd)) fd)
                   (set_files_of tx
                      (<[idx := default [] (files_of tx fd' !! idx) ++ [x]]>
                         (files_of tx fd')) fd')) as [Hall|Hraise]; [|by right].
      left. constructor; [by exists tx, idx|done].
    + right. exists e. by rewrite (fil_step_raises_any _ fd' _ _ _ He), He.
Qed.

Lemma files_matching_remove (fil1 fil2 : list record) (r : record) t id t' id' :
  is_file_of t id r → (t', id') ≠ (t, id) →
  files_matching t' id' (fil1 ++ r :: fil2)
  = files_matching t' id' (fil1 ++ fil2).
Proof.
  intros Hr Hne. unfold files_matching.
  rewrite !filter_app, filter_cons, decide_False; [done|].
  intros Hr'. destruct (is_file_of_inj _ _ _ _ _ Hr Hr') as [-> ->]. done.
Qed.

(** Reading [fil.csv] with and without a row that can be filed: both
    raise the same exception, or both return, with dictionaries that agree
    on every key but the row's. *)
Lemma read_fil_remove (fil1 fil2 : list record) (r : record) t id :
  is_file_of t id r →
  (∃ e, read_fil (fil1 ++ r :: fil2) = ([], Raised e)
        ∧ read_fil (fil1 ++ fil2) = ([], Raised e))
  ∨ (∃ fd fd',
       read_fil (fil1 ++ r :: fil2) = ([], Returned fd)
       ∧ read_fil (fil1 ++ fil2) = ([], Returned fd')
       ∧ ∀ t' id', (t', id') ≠ (t, id) →
                   files_of t' fd !! id' = files_of t' fd' !! id').
Proof.
  intros Hr.
  destruct (foldM_fil_step_remove fil1 fil2 r t id Hr
              (FileDicts ∅ ∅ ∅) (FileDicts ∅ ∅ ∅)) as [Hall|Hraise];
    [right|by left].
  assert (Forall (λ r, ∃ t id, is_file_of t id r) (fil1 ++ r :: fil2)) as Hall'.
  { apply Forall_app_cons_remove; [by exists t, id|done]. }
  destruct (read_fil_returned _ Hall) as (fd' & Hfd' & Hlook').
  destruct (read_fil_returned _ Hall') as (fd & Hfd & Hlook).
  exists fd, fd'. split; [done|]. split; [done|].
  intros t' id' Hne.
  by rewrite Hlook, Hlook', (files_matching_remove _ _ _ t id).
Qed.

Lemma add_filListe_agree (files files' : gmap pykey (list record)) id obj :
  files !! id = files' !! id →
  add_filListe files id obj = add_filListe files' id obj.
Proof. intros H. unfold add_filListe. by rewrite H. Qed.

Lemma dokumentcdw_step_agree fd fd' t id dokumentcdw notat (row : csv_row) st :
  (∀ t' id', (t', id') ≠ (t, id) →
             files_of t' fd !! id' = files_of t' fd' !! id') →
  ¬ referenced t id dokumentcdw notat →
  row ∈ dokumentcdw →
  dokumentcdw_step fd st (row_dict row) = dokumentcdw_step fd' st (row_dict row).
Proof.
  intros Hagree Hunref Hrow. destruct st as [dokumenter imap].
  rewrite !dokumentcdw_step_cases.
  destruct (split_row_dict_lookup row "dokument_id") as [-> _].
  destruct (split_row_dict_lookup row "cdw_id") as [_ ->].
  rewrite decide_False by apply dokument_id_not_cdw_key.
  rewrite decide_True by apply cdw_id_cdw_key.
  destruct (row !! "dokument_id") as [c|] eqn:Hc; [|done]. cbn [fmap option_fmap option_map key_of].
  rewrite (add_filListe_agree (dokumentFiles fd) (dokumentFiles fd')).
  2: { apply (Hagree Dokument). intros [= <- <-]. apply Hunref.
       by exists row, c. }
  destruct (row !! "cdw_id") as [c'|] eqn:Hc'; [|done].
  cbn [fmap option_fmap option_map key_of ne_empty_str].
  case_bool_decide as Hempty; [done|]. cbn [negb].
  rewrite (add_filListe_agree (cdwFiles fd) (cdwFiles fd')); [done|].
  apply (Hagree Cdw). intros [= <- <-]. apply Hunref.
  by exists row, c'.
Qed.

Lemma notat_step_agree fd fd' t id dokumentcdw notat (row : csv_row) st :
  (∀ t' id', (t', id') ≠ (t, id) →
             files_of t' fd !! id' = files_of t' fd' !! id') →
  ¬ referenced t id dokumentcdw notat →
  row ∈ notat →
  notat_step fd st (row_dict row) = notat_step fd' st (row_dict row).
Proof.
  intros Hagree Hunref Hrow. destruct st as [sager imap].
  unfold notat_step. rewrite !get_key_cases.
  destruct (row_dict row !! "notat_id") as [v|] eqn:Hv; [|done].
  destruct (key_of v) as [k|] eqn:Hk; [|done].
  rewrite (add_filListe_agree (notatFiles fd) (notatFiles fd')); [done|].
  apply (Hagree Notat). intros [= <- <-]. apply Hunref.
  exists row. split; [done|].
  rewrite <- field_key_row_dict. unfold field_key. by rewrite Hv.
Qed.

Lemma build_sager_remove_fil fil1 fil2 (row : csv_row) t id sag dokumentcdw
    notat :
  is_file_of t id (row_dict row) →
  ¬ referenced t id dokumentcdw notat →
  build_sager (fil1 ++ row :: fil2) sag dokumentcdw notat
  = build_sager (fil1 ++ fil2) sag dokumentcdw notat.
Proof.
  intros Hrow Hunref. unfold build_sager, DictReader.
  rewrite !fmap_app, fmap_cons.
  destruct (read_fil_remove (row_dict <$> fil1) (row_dict <$> fil2)
              (row_dict row) t id Hrow)
    as [(e & -> & ->)|(fd & fd' & -> & -> & Hagree)]; [done|].
  rewrite !bind_returned_l. apply bind_ext. intros [sager imap].
  assert (read_dokumentcdw fd (row_dict <$> dokumentcdw)
          = read_dokumentcdw fd' (row_dict <$> dokumentcdw)) as ->.
  { apply foldM_ext. intros s x Hx.
    apply list_elem_of_fmap in Hx as (r & -> & Hr).
    by eapply dokumentcdw_step_agree. }
  apply bind_ext. intros [dokumenter imapd].
  apply bind_ext. intros [sager1 imap1].
  assert (foldM (notat_step fd) (sager1, imap1) (row_dict <$> notat)
          = foldM (notat_step fd') (sager1, imap1) (row_dict <$> notat)) as ->;
    [|done].
  apply foldM_ext. intros s x Hx.
  apply list_elem_of_fmap in Hx as (r & -> & Hr).
  by eapply notat_step_agree.
Qed.

(** C9. A row of [fil.csv] with a recognised kind and an id that no row of
    [dokumentcdw.csv] or [notat.csv] makes the run look up leaves no trace:
    the run prints the same lines, ends the same way and writes the same
    [cirius.json] as the run over [fil.csv] without that row. *)
Theorem unreferenced_file_dropped fil1 fil2 (row : csv_row) t id sag
    dokumentcdw notat json :
  row !! "notes_template_name" = Some (Some (template_name t)) →
  row !! "notes_template_id" = Some id →
  ¬ referenced t id dokumentcdw notat →
  (cirius (Folder (Some (fil1 ++ row :: fil2)) (Some sag) (Some dokumentcdw)
                  (Some notat) json)).2
  = (cirius (Folder (Some (fil1 ++ fil2)) (Some sag) (Some dokumentcdw)
                    (Some notat) json)).2
  ∧ cirius_json
      (cirius (Folder (Some (fil1 ++ row :: fil2)) (Some sag)
                      (Some dokumentcdw) (Some notat) json)).1
    = cirius_json
        (cirius (Folder (Some (fil1 ++ fil2)) (Some sag) (Some dokumentcdw)
                        (Some notat) json)).1.
Proof.
  intros Hname Hid Hunref. unfold cirius. cbn [fil_csv sag_csv dokumentcdw_csv notat_csv].
  rewrite (build_sager_remove_fil fil1 fil2 row t id); [|split|done].
  - by destruct (build_sager (fil1 ++ fil2) sag dokumentcdw notat)
      as [out [sager|e]].
  - by rewrite field_key_row_dict.
  - by rewrite field_key_row_dict.
Qed.

Lemma unreferenced_file_dropped_witness :
  fil_4 !! "notes_template_name" = Some (Some (template_name Notat))
  ∧ fil_4 !! "notes_template_id" = Some (Some "n9")
  ∧ ¬ referenced Notat (Some "n9") [dokument_d1_cdw_a] [notat_of_1]
  ∧ (cirius folder_with_files).2
    = (cirius (Folder (Some [fil_1; fil_2; fil_3]) (Some [sag_1])
                      (Some [dokument_d1_cdw_a]) (Some [notat_of_1]) None)).2
  ∧ cirius_json (cirius folder_with_files).1
    = cirius_json
        (cirius (Folder (Some [fil_1; fil_2; fil_3]) (Some [sag_1])
                        (Some [dokument_d1_cdw_a]) (Some [notat_of_1])
                        None)).1.
Proof.
  assert (¬ referenced Notat (Some "n9") [dokument_d1_cdw_a] [notat_of_1])
    as Hunref.
  { intros (r & Hr & Hid). apply elem_of_cons in Hr as [->|Hr].
    - discriminate Hid.
    - by apply elem_of_nil in Hr. }
  split; [reflexivity|]. split; [reflexivity|]. split; [exact Hunref|].
  exact (unreferenced_file_dropped [fil_1; fil_2; fil_3] [] fil_4 Notat
           (Some "n9") [sag_1] [dokument_d1_cdw_a] [notat_of_1] None
           eq_refl eq_refl Hunref).
Defined.

(** * Further properties *)

(** ** A run of [append_to_obj] calls *)

Lemma py_index_in_range index len k i :
  index_in_range index len → index !! k = Some i →
  py_index len i = Some (Z.to_nat i) ∧ Z.to_nat i < len
  ∧ i = Z.of_nat (Z.to_nat i).
Proof.
  intros Hrange Hk. apply Hrange in Hk. unfold py_index.
  rewrite bool_decide_eq_true_2 by done. split; [done|lia].
Qed.

Lemma attach_list_cons ty c cs p l :
  children_of p ty = Some l →
  attach_list ty cs (<[ty := VList (l ++ [c])]> p) = attach_list ty (c :: cs) p.
Proof.
  intros Hl. unfold attach_list. rewrite Hl. destruct cs as [|c' cs].
  - done.
  - rewrite children_of_insert, insert_insert_eq. simpl.
    by rewrite <- app_assoc.
Qed.

Lemma attach_list_children_of ty ty' cs p :
  is_Some (children_of p ty') → is_Some (children_of (attach_list ty cs p) ty').
Proof.
  intros Hp. unfold attach_list. destruct cs as [|c cs]; [done|].
  unfold children_of in *. destruct (decide (ty = ty')) as [->|Hne].
  - by rewrite lookup_insert_eq.
  - by rewrite lookup_insert_ne.
Qed.

Lemma foldM_append_to_obj ty (f : record → pykey) (index : gmap pykey Z) cs :
  ∀ parents,
    index_in_range index (length parents) →
    Forall (λ p, is_Some (children_of p ty)) parents →
    foldM (λ st c, append_to_obj st.1 st.2 (f c) ty c) (parents, index) cs
    = (orphans index f cs,
       Returned (imap (λ n p, attach_list ty (children_at index f n cs) p)
                      parents,
                 index)).
Proof.
  induction cs as [|c cs IH]; intros parents Hrange Hall.
  - unfold orphans, children_at. simpl.
    assert (imap (λ (_ : nat) (p : record), p) parents = parents) as ->; [|done].
    apply list_eq. intros n. rewrite list_lookup_imap.
    by destruct (parents !! n).
  - rewrite foldM_cons. cbn [fst snd].
    destruct (index !! f c) as [i|] eqn:Hk.
    + destruct (py_index_in_range _ _ _ _ Hrange Hk) as (Hi & Hlt & Hnat).
      destruct (lookup_lt_is_Some_2 parents (Z.to_nat i) Hlt) as [p Hp].
      pose proof (Forall_lookup_1 _ _ _ _ Hall Hp) as [l Hl].
      rewrite (append_to_obj_present _ _ _ _ _ i (Z.to_nat i) p l) by done.
      rewrite bind_returned_l, IH.
      2: { by rewrite length_insert. }
      2: { apply Forall_insert; [done|]. by rewrite children_of_insert. }
      unfold orphans. rewrite filter_cons, decide_False by congruence.
      do 3 f_equal. apply list_eq. intros n. rewrite !list_lookup_imap.
      unfold children_at. rewrite filter_cons.
      destruct (decide (n = Z.to_nat i)) as [->|Hne].
      * rewrite list_lookup_insert_eq, Hp by done. simpl.
        rewrite decide_True by congruence.
        f_equal. by apply attach_list_cons.
      * rewrite list_lookup_insert_ne by done.
        rewrite decide_False; [done|]. rewrite Hk. intros [= Heq]. lia.
    + rewrite (append_to_obj_absent _ _ _ _ _ Hk).
      change ([NotFound (f c) c], Returned (parents, index))
        with (print (NotFound (f c) c) ≫= λ _, mret (parents, index)).
      unfold orphans. rewrite filter_cons, decide_True by done.
      rewrite fmap_cons.
      specialize (IH parents Hrange Hall).
      munfold. rewrite IH. simpl. do 3 f_equal.
      apply imap_ext. intros n p _. unfold children_at.
      rewrite filter_cons, decide_False; [done|]. by rewrite Hk.
Qed.

(** ** Pass 3 in closed form *)

Lemma not_cdw_key_dec (k : string) :
  bool_decide (k ∈ cdw_keys) = false → k ∉ cdw_keys.
Proof. apply bool_decide_eq_false_1. Qed.

Lemma dokument_part_lookup fd (row : csv_row) (k : string) :
  k ∉ cdw_keys → k ≠ "filListe" →
  dokument_part fd row !! k = (λ c, VStr (default "" c)) <$> row !! k.
Proof.
  intros Hk Hf. unfold dokument_part.
  rewrite add_filListe_lookup, decide_False by done.
  destruct (split_row_dict_lookup row k) as [-> _].
  by rewrite decide_False.
Qed.

(** One row of [dokumentcdw.csv], for a table with the columns of
    [dokumentcdw_row_ok] and an index without the key [None]. *)
Lemma dokumentcdw_step_row fd dokumenter (index : gmap pykey Z)
    (row : csv_row) :
  dokumentcdw_row_ok row →
  index !! None = None →
  index_in_range index (length dokumenter) →
  ∃ index',
    dokumentcdw_step fd (dokumenter, index) (row_dict row)
    = (lost_cdw fd [row],
       Returned (dokumenter ++ [document_of_row fd row], index'))
    ∧ index' !! None = None
    ∧ index_in_range index' (S (length dokumenter)).
Proof.
  intros ([c Hc] & [c' Hc'] & _ & Hcl) Hnone Hrange.
  exists (<[Some (default "" c) := Z.of_nat (length dokumenter)]> index).
  assert (index_in_range
            (<[Some (default "" c) := Z.of_nat (length dokumenter)]> index)
            (S (length dokumenter))) as Hrange'.
  { intros k i. destruct (decide (Some (default "" c) = k)) as [<-|Hne].
    - rewrite lookup_insert_eq. intros [= <-]. lia.
    - rewrite lookup_insert_ne by done. intros Hk. apply Hrange in Hk. lia. }
  split; [|split; [by rewrite lookup_insert_ne|done]].
  rewrite dokumentcdw_step_cases.
  destruct (split_row_dict_lookup row "dokument_id") as [-> _].
  destruct (split_row_dict_lookup row "cdw_id") as [_ ->].
  rewrite decide_False by apply dokument_id_not_cdw_key.
  rewrite decide_True by apply cdw_id_cdw_key.
  rewrite row_dict_lookup, Hc, Hc'. cbn [fmap option_fmap option_map key_of].
  cbn zeta. cbn [ne_empty_str].
  assert (add_filListe (dokumentFiles fd) (Some (default "" c))
            (split_dokumentcdw (row_dict row)).1 = dokument_part fd row) as ->.
  { unfold dokument_part, cell_of. by rewrite Hc. }
  assert (add_filListe (cdwFiles fd) (Some (default "" c'))
            (split_dokumentcdw (row_dict row)).2 = cdw_part fd row) as ->.
  { unfold cdw_part, cell_of. by rewrite Hc'. }
  assert (has_cdw row = negb (bool_decide (default "" c' = ""))) as Hhas.
  { unfold has_cdw, cell_of. by rewrite Hc'. }
  assert (cdw_attached row = has_cdw row && bool_decide (is_Some c)) as Hatt.
  { unfold cdw_attached, cell_of. by rewrite Hc. }
  unfold lost_cdw, document_of_row. rewrite filter_cons, filter_nil.
  rewrite Hatt, Hhas.
  destruct (bool_decide (default "" c' = "")); cbn [negb andb].
  { by rewrite decide_False by (by intros [[] _]). }
  destruct c as [s|]; cbn [cell key_of default].
  - rewrite bool_decide_eq_true_2 by by eexists.
    rewrite decide_False by (intros [_ Hn]; by apply Hn).
    rewrite (append_to_obj_present _ _ _ _ _ (Z.of_nat (length dokumenter))
               (length dokumenter) (dokument_part fd row) []).
    + by rewrite insert_app_r_alt, Nat.sub_diag by done.
    + apply lookup_insert_eq.
    + rewrite length_app. simpl. apply py_index_nonneg. lia.
    + by rewrite lookup_app_r, Nat.sub_diag.
    + unfold children_of.
      rewrite dokument_part_lookup, Hcl; [done| |done].
      by apply not_cdw_key_dec.
  - rewrite bool_decide_eq_false_2 by by intros [? ?].
    rewrite decide_True by (split; [done|by intros ?]).
    rewrite append_to_obj_absent; [done|].
    by rewrite lookup_insert_ne.
Qed.

Lemma lost_cdw_cons fd row rows :
  lost_cdw fd (row :: rows) = lost_cdw fd [row] ++ lost_cdw fd rows.
Proof.
  unfold lost_cdw. rewrite !filter_cons, filter_nil.
  by destruct (decide _).
Qed.

Lemma bind_returned_eq {A B} (m : M A) (f : A → M B) out a :
  m = (out, Returned a) →
  m ≫= f = (out ++ (f a).1, (f a).2).
Proof. intros ->. munfold. by destruct (f a). Qed.

Lemma foldM_dokumentcdw_rows fd (rows : list csv_row) :
  ∀ dokumenter (index : gmap pykey Z),
    Forall dokumentcdw_row_ok rows →
    index !! None = None →
    index_in_range index (length dokumenter) →
    ∃ index',
      foldM (dokumentcdw_step fd) (dokumenter, index) (DictReader rows)
      = (lost_cdw fd rows,
         Returned (dokumenter ++ (document_of_row fd <$> rows), index'))
      ∧ index' !! None = None
      ∧ index_in_range index' (length dokumenter + length rows).
Proof.
  induction rows as [|row rows IH]; intros dokumenter index Hall Hnone Hrange.
  - exists index. rewrite app_nil_r, Nat.add_0_r. split; [reflexivity|done].
  - apply Forall_cons in Hall as [Hrow Hall].
    destruct (dokumentcdw_step_row fd dokumenter index row Hrow Hnone Hrange)
      as (index1 & Hstep & Hnone1 & Hrange1).
    destruct (IH (dokumenter ++ [document_of_row fd row]) index1 Hall Hnone1)
      as (index' & Hrun & Hnone' & Hrange').
    { rewrite length_app. simpl. by rewrite Nat.add_1_r. }
    exists index'. split; [|split; [done|]].
    + unfold DictReader. rewrite fmap_cons, foldM_cons.
      rewrite (bind_returned_eq _ _ _ _ Hstep).
      unfold DictReader in Hrun. rewrite Hrun. cbn [fst snd].
      by rewrite (lost_cdw_cons fd row rows), fmap_cons, <- app_assoc.
    + rewrite length_app in Hrange'. simpl in *.
      by replace (length dokumenter + S (length rows))
        with (length dokumenter + 1 + length rows) by lia.
Qed.

(** ** Pass 4 in closed form *)

Lemma foldM_fmap {A B S} (g : S → B → M S) (h : A → B) l :
  ∀ s, foldM g s (h <$> l) = foldM (λ s x, g s (h x)) s l.
Proof.
  induction l as [|x l IH]; intros s; [done|].
  rewrite fmap_cons, !foldM_cons. apply bind_ext. intros s'. apply IH.
Qed.

Lemma dokument_step_sagsnr st (dokument : record) :
  is_Some (field_key dokument "SagsNr") →
  dokument_step st dokument
  = append_to_obj st.1 st.2 (sagsnr_of dokument) "dokumentListe" dokument.
Proof.
  intros [k Hk]. destruct st as [sager index]. unfold dokument_step, sagsnr_of.
  by rewrite (get_key_field _ _ _ _ Hk), Hk.
Qed.

Lemma notat_step_sagsnr fd st (row : csv_row) :
  notat_row_ok row →
  notat_step fd st (row_dict row)
  = append_to_obj st.1 st.2 (sagsnr_of (note_of_row fd row)) "notatListe"
                  (note_of_row fd row).
Proof.
  intros [[c Hc] [c' Hc']]. destruct st as [sager index].
  unfold notat_step, sagsnr_of, note_of_row, cell_of.
  rewrite (get_key_field _ _ c); [|by rewrite field_key_row_dict].
  rewrite Hc. cbn [default from_option id].
  assert (field_key (add_filListe (notatFiles fd) c (row_dict row)) "SagsNr"
          = Some c') as Hk.
  { unfold field_key.
    by rewrite add_filListe_lookup, decide_False, row_dict_lookup, Hc';
      [destruct c'|]. }
  by rewrite (get_key_field _ _ _ _ Hk), Hk.
Qed.

Lemma document_of_row_sagsnr fd (row : csv_row) c :
  row !! "SagsNr" = Some c →
  field_key (document_of_row fd row) "SagsNr" = Some (Some (default "" c)).
Proof.
  intros Hc. unfold field_key, document_of_row.
  assert (dokument_part fd row !! "SagsNr" = Some (VStr (default "" c))) as Hd.
  { rewrite dokument_part_lookup, Hc; [done| |done]. by apply not_cdw_key_dec. }
  destruct (cdw_attached row).
  - by rewrite lookup_insert_ne, Hd.
  - by rewrite Hd.
Qed.

(** ** A run over well-formed tables, in closed form *)

Lemma fil_row_ok_file (row : csv_row) :
  fil_row_ok row → ∃ t id, is_file_of t id (row_dict row).
Proof.
  intros [[t Ht] [id Hid]]. exists t, id.
  split; by rewrite field_key_row_dict.
Qed.

Lemma read_sag_rows (rows : list csv_row) :
  Forall sag_row_ok rows →
  ∃ index : gmap pykey Z,
    read_sag (DictReader rows) = ([], Returned (DictReader rows, index))
    ∧ (∀ k, index !! k = Z.of_nat <$> last_position k (DictReader rows))
    ∧ index_in_range index (length rows).
Proof.
  intros Hall.
  destruct (foldM_sag_step (DictReader rows) [] ∅) as (index & Hrun & Hindex).
  { apply Forall_fmap. eapply Forall_impl; [done|].
    intros row [[c Hc] _]. simpl. rewrite field_key_row_dict. by eexists. }
  assert (∀ k, index !! k = Z.of_nat <$> last_position k (DictReader rows))
    as Hlast.
  { intros k. rewrite Hindex, lookup_empty.
    by destruct (last_position k (DictReader rows)). }
  exists index. split; [done|]. split; [done|].
  intros k i. rewrite Hlast.
  destruct (last_position k (DictReader rows)) as [j|] eqn:Hj; [|done].
  intros [= <-]. apply last_position_Some in Hj as [(r & Hr & _) _].
  apply lookup_lt_Some in Hr. unfold DictReader in Hr.
  rewrite length_fmap in Hr. lia.
Qed.

Lemma imap_imap {A B C} (f : nat → A → B) (g : nat → B → C) (l : list A) :
  imap g (imap f l) = imap (λ n x, g n (f n x)) l.
Proof.
  apply list_eq. intros n. rewrite !list_lookup_imap.
  by destruct (l !! n).
Qed.

Lemma build_sager_closed fil sag dokumentcdw notat :
  Forall fil_row_ok fil → Forall sag_row_ok sag →
  Forall dokumentcdw_row_ok dokumentcdw → Forall notat_row_ok notat →
  ∃ fd (index : gmap pykey Z),
    (∀ t id, files_of t fd !! id
             = files_entry (files_matching t id (DictReader fil)))
    ∧ (∀ k, index !! k = Z.of_nat <$> last_position k (DictReader sag))
    ∧ build_sager fil sag dokumentcdw notat
      = (lost_cdw fd dokumentcdw
         ++ orphans index sagsnr_of (document_of_row fd <$> dokumentcdw)
         ++ orphans index sagsnr_of (note_of_row fd <$> notat),
         Returned (joined index (DictReader sag)
                          (document_of_row fd <$> dokumentcdw)
                          (note_of_row fd <$> notat))).
Proof.
  intros Hfil Hsag Hdok Hnot.
  destruct (read_fil_returned (DictReader fil)) as (fd & Hrfil & Hfd).
  { apply Forall_fmap. eapply Forall_impl; [done|]. apply fil_row_ok_file. }
  destruct (read_sag_rows sag Hsag) as (index & Hrsag & Hindex & Hrange).
  destruct (foldM_dokumentcdw_rows fd dokumentcdw [] ∅ Hdok)
    as (indexd & Hrdok & _ & _); [done|by intros k i|].
  exists fd, index. split; [done|]. split; [done|].
  unfold build_sager. rewrite Hrfil, bind_returned_l, Hrsag, bind_returned_l.
  unfold read_dokumentcdw. rewrite (bind_returned_eq _ _ _ _ Hrdok).
  cbn [app].
  assert (foldM dokument_step (DictReader sag, index)
                (document_of_row fd <$> dokumentcdw)
          = (orphans index sagsnr_of (document_of_row fd <$> dokumentcdw),
             Returned
               (imap (λ n p, attach_list "dokumentListe"
                               (children_at index sagsnr_of n
                                  (document_of_row fd <$> dokumentcdw)) p)
                     (DictReader sag), index))) as Hdoks.
  { rewrite (foldM_ext dokument_step
               (λ st c, append_to_obj st.1 st.2 (sagsnr_of c)
                                      "dokumentListe" c)).
    - apply foldM_append_to_obj.
      + unfold DictReader. by rewrite length_fmap.
      + apply Forall_fmap. eapply Forall_impl; [exact Hsag|].
        intros row (_ & Hd & _). simpl. unfold children_of.
        by rewrite row_dict_lookup, Hd.
    - intros st x Hx. apply dokument_step_sagsnr.
      apply list_elem_of_fmap in Hx as (row & -> & Hrow).
      eapply Forall_forall in Hdok as (_ & _ & [c Hc] & _); [|done].
      rewrite (document_of_row_sagsnr _ _ _ Hc). by eexists. }
  rewrite (bind_returned_eq _ _ _ _ Hdoks).
  assert (foldM (notat_step fd)
                (imap (λ n p, attach_list "dokumentListe"
                                (children_at index sagsnr_of n
                                   (document_of_row fd <$> dokumentcdw)) p)
                      (DictReader sag), index)
                (DictReader notat)
          = (orphans index sagsnr_of (note_of_row fd <$> notat),
             Returned (joined index (DictReader sag)
                              (document_of_row fd <$> dokumentcdw)
                              (note_of_row fd <$> notat), index))) as Hnotes.
  { unfold DictReader at 2. rewrite foldM_fmap.
    rewrite (foldM_ext _
               (λ st row, append_to_obj st.1 st.2
                            (sagsnr_of (note_of_row fd row)) "notatListe"
                            (note_of_row fd row))).
    2: { intros st row Hrow. apply notat_step_sagsnr.
         by eapply Forall_forall in Hnot. }
    rewrite <- (foldM_fmap
                  (λ st c, append_to_obj st.1 st.2 (sagsnr_of c)
                                         "notatListe" c) (note_of_row fd)).
    rewrite foldM_append_to_obj.
    - unfold joined. by rewrite imap_imap.
    - unfold DictReader. by rewrite length_imap, length_fmap.
    - apply Forall_forall. intros p Hp.
      apply list_elem_of_lookup in Hp as [n Hp].
      rewrite list_lookup_imap in Hp.
      destruct (DictReader sag !! n) as [p0|] eqn:Hp0; [|done].
      simpl in Hp. simplify_eq. apply attach_list_children_of.
      unfold DictReader in Hp0. rewrite list_lookup_fmap in Hp0.
      destruct (sag !! n) as [row|] eqn:Hrow; [|done]. simpl in Hp0.
      simplify_eq. eapply Forall_lookup_1 in Hsag as (_ & _ & Hn); [|done].
      unfold children_of. by rewrite row_dict_lookup, Hn. }
  cbn [fst snd]. rewrite (bind_returned_eq _ _ _ _ Hnotes).
  cbn [fst snd mret M_ret ret]. by rewrite app_nil_r.
Qed.

(** ** The exceptions of a run *)

Lemma bind_raised {A B} (m : M A) (f : A → M B) out e :
  m ≫= f = (out, Raised e) →
  m = (out, Raised e)
  ∨ ∃ out1 a out2, m = (out1, Returned a) ∧ f a = (out2, Raised e)
                   ∧ out = out1 ++ out2.
Proof.
  munfold. destruct m as [out1 [a|e']].
  - destruct (f a) as [out2 r] eqn:Hf. intros [= <- ->].
    right. by exists out1, a, out2.
  - intros [= <- <-]. by left.
Qed.

Lemma foldM_raised_inv {A S} (f : S → A → M S) (I : S → Prop)
    (Q : exn → Prop) l :
  ∀ s out e,
    I s →
    (∀ s x out s', x ∈ l → I s → f s x = (out, Returned s') → I s') →
    (∀ s x out e, x ∈ l → I s → f s x = (out, Raised e) → Q e) →
    foldM f s l = (out, Raised e) → Q e.
Proof.
  induction l as [|x l IH]; intros s out e Hs Hret Hraise Hrun; [done|].
  rewrite foldM_cons in Hrun.
  apply bind_raised in Hrun as [Hx|(out1 & s1 & out2 & Hx & Hl & _)].
  - eapply Hraise; [by left|done..].
  - eapply (IH s1); [|intros; eapply Hret; [by right|done..]|
                      intros; eapply Hraise; [by right|done..]|done].
    eapply Hret; [by left|done..].
Qed.

Lemma key_of_cell c : key_of (cell c) = Some c.
Proof. by destruct c. Qed.

Lemma get_key_row_dict_raised {B} (row : csv_row) f (g : pykey → M B) out e :
  (v ← getitem (row_dict row) f; k ← hash_key v; g k) = (out, Raised e) →
  (row !! f = None ∧ e = KeyError (Some f))
  ∨ ∃ c, row !! f = Some c ∧ g c = (out, Raised e).
Proof.
  rewrite get_key_cases, row_dict_lookup.
  destruct (row !! f) as [c|]; simpl.
  - rewrite key_of_cell. right. by exists c.
  - intros [= <- <-]. by left.
Qed.

Lemma append_to_obj_raised parents imap key ty child out e :
  index_in_range imap (length parents) →
  append_to_obj parents imap key ty child = (out, Raised e) →
  e = AttributeError.
Proof.
  intros Hrange. rewrite append_to_obj_cases.
  destruct (imap !! key) as [i|] eqn:Hk; [|done].
  destruct (py_index_in_range _ _ _ _ Hrange Hk) as (-> & Hlt & _).
  destruct (lookup_lt_is_Some_2 parents (Z.to_nat i) Hlt) as [p ->].
  destruct (children_of p ty); [done|]. by intros [= <- <-].
Qed.

Lemma append_to_obj_range parents imap key ty child out parents' imap' :
  index_in_range imap (length parents) →
  append_to_obj parents imap key ty child = (out, Returned (parents', imap')) →
  index_in_range imap' (length parents').
Proof.
  intros Hrange Hrun.
  apply (append_to_obj_same_fields [ty]) in Hrun as [Hlen ->];
    [|by apply list_elem_of_here].
  apply Forall2_length in Hlen. by rewrite <- Hlen.
Qed.

Lemma fil_step_row_raised fd (row : csv_row) out e :
  fil_step fd (row_dict row) = (out, Raised e) → run_exn e.
Proof.
  unfold fil_step. intros Hrun.
  apply get_key_row_dict_raised in Hrun as [[_ ->]|(name & _ & Hrun)]; [done|].
  destruct (dict_mapping_cases name) as [(t & -> & Ht)|[_ Ht]];
    rewrite Ht in Hrun; [|by inversion Hrun].
  rewrite bind_ret_l in Hrun.
  apply get_key_row_dict_raised in Hrun as [[_ ->]|(id & _ & Hrun)]; [done|].
  by inversion Hrun.
Qed.

Lemma sag_step_row_raised st (row : csv_row) out e :
  sag_step st (row_dict row) = (out, Raised e) → run_exn e.
Proof.
  destruct st as [sager imap]. unfold sag_step. intros Hrun.
  apply get_key_row_dict_raised in Hrun as [[_ ->]|(nr & _ & Hrun)]; [done|].
  by inversion Hrun.
Qed.

Lemma sag_step_range sager imap (sag : record) out sager' imap' :
  index_in_range imap (length sager) →
  sag_step (sager, imap) sag = (out, Returned (sager', imap')) →
  index_in_range imap' (length sager').
Proof.
  intros Hrange Hrun. unfold sag_step in Hrun.
  apply get_key_returned in Hrun as (k & _ & Hrun). inversion Hrun. subst.
  intros k' i. rewrite length_app. simpl.
  destruct (decide (k = k')) as [->|Hne].
  - rewrite lookup_insert_eq. intros [= <-]. lia.
  - rewrite lookup_insert_ne by done. intros Hk. apply Hrange in Hk. lia.
Qed.

Lemma index_in_range_insert (index : gmap pykey Z) len k :
  index_in_range index len →
  index_in_range (<[k := Z.of_nat len]> index) (S len).
Proof.
  intros Hrange k' i. destruct (decide (k = k')) as [->|Hne].
  - rewrite lookup_insert_eq. intros [= <-]. lia.
  - rewrite lookup_insert_ne by done. intros Hk. apply Hrange in Hk. lia.
Qed.

(** What a row of [dokumentcdw.csv] does to the state of pass 3, with the
    columns it has or not. *)
Lemma dokumentcdw_step_row_cases fd dokumenter (index : gmap pykey Z)
    (row : csv_row) :
  index_in_range index (length dokumenter) →
  Forall (no_list_at "SagsNr") dokumenter →
  (∃ out e, dokumentcdw_step fd (dokumenter, index) (row_dict row)
            = (out, Raised e) ∧ run_exn e)
  ∨ (∃ out dokumenter' index',
       dokumentcdw_step fd (dokumenter, index) (row_dict row)
       = (out, Returned (dokumenter', index'))
       ∧ index_in_range index' (length dokumenter')
       ∧ Forall (no_list_at "SagsNr") dokumenter').
Proof.
  intros Hrange Hcells. rewrite dokumentcdw_step_cases.
  destruct (split_row_dict_lookup row "dokument_id") as [-> _].
  destruct (split_row_dict_lookup row "cdw_id") as [_ ->].
  rewrite decide_False by apply dokument_id_not_cdw_key.
  rewrite decide_True by apply cdw_id_cdw_key.
  destruct (row !! "dokument_id") as [c|] eqn:Hc;
    [|left; by eexists _, _].
  cbn [fmap option_fmap option_map key_of]. cbn zeta.
  assert (index_in_range
            (<[Some (default "" c) := Z.of_nat (length dokumenter)]> index)
            (length (dokumenter
                     ++ [add_filListe (dokumentFiles fd) (Some (default "" c))
                           (split_dokumentcdw (row_dict row)).1])))
    as Hrange1.
  { rewrite length_app. simpl. rewrite Nat.add_1_r.
    by apply index_in_range_insert. }
  assert (Forall (no_list_at "SagsNr")
            (dokumenter
             ++ [add_filListe (dokumentFiles fd) (Some (default "" c))
                   (split_dokumentcdw (row_dict row)).1])) as Hcells1.
  { apply Forall_app. split; [done|]. constructor; [|done].
    intros l. rewrite add_filListe_lookup, decide_False by done.
    apply split_row_dict_not_list. }
  destruct (row !! "cdw_id") as [c'|] eqn:Hc'; [|left; by eexists _, _].
  cbn [fmap option_fmap option_map key_of ne_empty_str].
  destruct (negb _); [|right; by eexists _, _, _].
  rewrite row_dict_lookup, Hc. cbn [fmap option_fmap option_map].
  rewrite key_of_cell.
  destruct (append_to_obj _ _ c "cdwListe" _) as [out [[d' i']|e]] eqn:Hrun.
  - right. exists out, d', i'. split; [done|]. split.
    + by eapply append_to_obj_range.
    + eapply (append_to_obj_Forall (no_list_at "SagsNr")); [|done..].
      intros p l Hp _ l'. by rewrite lookup_insert_ne.
  - left. exists out, e. split; [done|].
    by rewrite (append_to_obj_raised _ _ _ _ _ _ _ Hrange1 Hrun).
Qed.

Lemma dokument_step_cases_exn sager imap (dokument : record) :
  index_in_range imap (length sager) →
  no_list_at "SagsNr" dokument →
  (∃ out e, dokument_step (sager, imap) dokument = (out, Raised e)
            ∧ run_exn e)
  ∨ (∃ out sager' imap',
       dokument_step (sager, imap) dokument = (out, Returned (sager', imap'))
       ∧ index_in_range imap' (length sager')).
Proof.
  intros Hrange Hcell. unfold dokument_step. rewrite get_key_cases.
  destruct (dokument !! "SagsNr") as [v|] eqn:Hv; [|left; by eexists _, _].
  destruct v as [|s|l]; [| |by destruct (Hcell l)]; cbn [key_of].
  all: unfold append_to_sag.
  all: destruct (append_to_obj _ _ _ "dokumentListe" _)
         as [out [[s' i']|e]] eqn:Hrun.
  all: try (right; exists out, s', i'; split; [done|];
            by eapply append_to_obj_range).
  all: left; exists out, e; split; [done|];
       by rewrite (append_to_obj_raised _ _ _ _ _ _ _ Hrange Hrun).
Qed.

Lemma notat_step_cases_exn fd sager imap (row : csv_row) :
  index_in_range imap (length sager) →
  (∃ out e, notat_step fd (sager, imap) (row_dict row) = (out, Raised e)
            ∧ run_exn e)
  ∨ (∃ out sager' imap',
       notat_step fd (sager, imap) (row_dict row)
       = (out, Returned (sager', imap'))
       ∧ index_in_range imap' (length sager')).
Proof.
  intros Hrange. unfold notat_step. rewrite get_key_cases, row_dict_lookup.
  destruct (row !! "notat_id") as [c|]; [|left; by eexists _, _].
  cbn [fmap option_fmap option_map]. rewrite key_of_cell, get_key_cases.
  rewrite add_filListe_lookup, decide_False, row_dict_lookup by done.
  destruct (row !! "SagsNr") as [c'|]; [|left; by eexists _, _].
  cbn [fmap option_fmap option_map]. rewrite key_of_cell.
  unfold append_to_sag.
  destruct (append_to_obj _ _ _ "notatListe" _)
    as [out [[s' i']|e]] eqn:Hrun.
  - right. exists out, s', i'. split; [done|]. by eapply append_to_obj_range.
  - left. exists out, e. split; [done|].
    by rewrite (append_to_obj_raised _ _ _ _ _ _ _ Hrange Hrun).
Qed.

Lemma read_fil_raised (rows : list csv_row) out e :
  read_fil (DictReader rows) = (out, Raised e) → run_exn e.
Proof.
  apply (foldM_raised_inv fil_step (λ _, True)); [done..|].
  intros fd x o e' Hx _ Hstep.
  apply list_elem_of_fmap in Hx as (row & -> & _).
  by eapply fil_step_row_raised.
Qed.

Lemma read_sag_raised (rows : list csv_row) out e :
  read_sag (DictReader rows) = (out, Raised e) → run_exn e.
Proof.
  apply (foldM_raised_inv sag_step (λ _, True)); [done..|].
  intros st x o e' Hx _ Hstep.
  apply list_elem_of_fmap in Hx as (row & -> & _).
  by eapply sag_step_row_raised.
Qed.

Lemma read_sag_range (rows : list record) out sager imap :
  read_sag rows = (out, Returned (sager, imap)) →
  index_in_range imap (length sager).
Proof.
  apply (foldM_returned_inv sag_step
           (λ st, index_in_range st.2 (length st.1)) rows ([], ∅) out
           (sager, imap)); [by intros k i|].
  intros [s i] x o [s' i'] _ Hs Hstep. by eapply sag_step_range.
Qed.

Lemma read_dokumentcdw_raised fd (rows : list csv_row) out e :
  read_dokumentcdw fd (DictReader rows) = (out, Raised e) → run_exn e.
Proof.
  apply (foldM_raised_inv (dokumentcdw_step fd)
           (λ st, index_in_range st.2 (length st.1)
                  ∧ Forall (no_list_at "SagsNr") st.1)).
  - split; [by intros k i|done].
  - intros [d i] x o [d' i'] Hx [Hr Hc] Hstep.
    apply list_elem_of_fmap in Hx as (row & -> & _).
    destruct (dokumentcdw_step_row_cases fd d i row Hr Hc)
      as [(o1 & e1 & H1 & _)|(o1 & d1 & i1 & H1 & Hr1 & Hc1)];
      [congruence|]. rewrite Hstep in H1. by simplify_eq.
  - intros [d i] x o e' Hx [Hr Hc] Hstep.
    apply list_elem_of_fmap in Hx as (row & -> & _).
    destruct (dokumentcdw_step_row_cases fd d i row Hr Hc)
      as [(o1 & e1 & H1 & He1)|(o1 & d1 & i1 & H1 & _)];
      [|congruence]. rewrite Hstep in H1. by simplify_eq.
Qed.

Lemma read_dokumentcdw_cells fd (rows : list csv_row) out dokumenter imap :
  read_dokumentcdw fd (DictReader rows) = (out, Returned (dokumenter, imap)) →
  index_in_range imap (length dokumenter)
  ∧ Forall (no_list_at "SagsNr") dokumenter.
Proof.
  apply (foldM_returned_inv (dokumentcdw_step fd)
           (λ st, index_in_range st.2 (length st.1)
                  ∧ Forall (no_list_at "SagsNr") st.1)
           (DictReader rows) ([], ∅) out (dokumenter, imap)).
  - split; [by intros k i|done].
  - intros [d i] x o [d' i'] Hx [Hr Hc] Hstep.
    apply list_elem_of_fmap in Hx as (row & -> & _).
    destruct (dokumentcdw_step_row_cases fd d i row Hr Hc)
      as [(o1 & e1 & H1 & _)|(o1 & d1 & i1 & H1 & Hr1 & Hc1)];
      [congruence|]. rewrite Hstep in H1. by simplify_eq.
Qed.

Lemma build_sager_raised fil sag dokumentcdw notat out e :
  build_sager fil sag dokumentcdw notat = (out, Raised e) → run_exn e.
Proof.
  unfold build_sager. intros Hrun.
  apply bind_raised in Hrun as [Hrun|(o1 & fd & o1' & _ & Hrun & _)];
    [by eapply read_fil_raised|].
  apply bind_raised in Hrun
    as [Hrun|(o2 & [sager0 imap0] & o2' & Hsag & Hrun & _)];
    [by eapply read_sag_raised|].
  apply read_sag_range in Hsag.
  apply bind_raised in Hrun
    as [Hrun|(o3 & [dokumenter imapd] & o3' & Hdok & Hrun & _)];
    [by eapply read_dokumentcdw_raised|].
  apply read_dokumentcdw_cells in Hdok as [_ Hcells].
  apply bind_raised in Hrun
    as [Hrun|(o4 & [sager1 imap1] & o4' & Hatt & Hrun & _)].
  { revert Hrun. apply (foldM_raised_inv dokument_step
                          (λ st, index_in_range st.2 (length st.1))); [done| |].
    - intros [s i] x o [s' i'] Hx Hr Hstep.
      eapply Forall_forall in Hcells; [|done].
      destruct (dokument_step_cases_exn s i x Hr Hcells)
        as [(o' & e' & H1 & _)|(o' & s1 & i1 & H1 & Hr1)]; [congruence|].
      rewrite Hstep in H1. by simplify_eq.
    - intros [s i] x o e' Hx Hr Hstep.
      eapply Forall_forall in Hcells; [|done].
      destruct (dokument_step_cases_exn s i x Hr Hcells)
        as [(o' & e1 & H1 & He1)|(o' & s1 & i1 & H1 & _)]; [|congruence].
      rewrite Hstep in H1. by simplify_eq. }
  assert (index_in_range imap1 (length sager1)) as Hrange1.
  { revert Hatt. apply (foldM_returned_inv dokument_step
                          (λ st, index_in_range st.2 (length st.1))
                          dokumenter (sager0, imap0) o4 (sager1, imap1));
      [done|].
    intros [s i] x o [s' i'] Hx Hr Hstep.
    eapply Forall_forall in Hcells; [|done].
    destruct (dokument_step_cases_exn s i x Hr Hcells)
      as [(o' & e' & H1 & _)|(o' & s1 & i1 & H1 & Hr1)]; [congruence|].
    rewrite Hstep in H1. by simplify_eq. }
  apply bind_raised in Hrun
    as [Hrun|(o5 & [sager2 imap2] & o5' & _ & Hrun & _)]; [|by inversion Hrun].
  revert Hrun. apply (foldM_raised_inv (notat_step fd)
                        (λ st, index_in_range st.2 (length st.1))); [done| |].
  - intros [s i] x o [s' i'] Hx Hr Hstep.
    apply list_elem_of_fmap in Hx as (row & -> & _).
    destruct (notat_step_cases_exn fd s i row Hr)
      as [(o' & e' & H1 & _)|(o' & s1 & i1 & H1 & Hr1)]; [congruence|].
    rewrite Hstep in H1. by simplify_eq.
  - intros [s i] x o e' Hx Hr Hstep.
    apply list_elem_of_fmap in Hx as (row & -> & _).
    destruct (notat_step_cases_exn fd s i row Hr)
      as [(o' & e1 & H1 & He1)|(o' & s1 & i1 & H1 & _)]; [|congruence].
    rewrite Hstep in H1. by simplify_eq.
Qed.

(** ** The properties, beyond the claims *)

(** X1. A run of [append_to_obj] calls for the children [cs], over an
    index that holds positions of the parent list and parents whose child
    field is absent or a list: no call raises; the lines printed are those of
    the children whose key the index does not have, in order; and each
    parent ends with the children that resolve to its position appended to
    its list in order, and is untouched when there is none. *)
Theorem append_to_obj_run ty (f : record → pykey) (index : gmap pykey Z)
    parents cs :
  index_in_range index (length parents) →
  Forall (λ p, is_Some (children_of p ty)) parents →
  foldM (λ st c, append_to_obj st.1 st.2 (f c) ty c) (parents, index) cs
  = (orphans index f cs,
     Returned (imap (λ n p, attach_list ty (children_at index f n cs) p)
                    parents,
               index)).
Proof. apply foldM_append_to_obj. Qed.

Lemma append_to_obj_run_witness :
  let index : gmap pykey Z := {[Some "1" := 0%Z]} in
  let parents := [row_dict sag_1; row_dict sag_2] in
  let cs := [row_dict notat_of_2; row_dict notat_of_1] in
  index_in_range index (length parents)
  ∧ Forall (λ p, is_Some (children_of p "notatListe")) parents
  ∧ foldM (λ st c, append_to_obj st.1 st.2 (sagsnr_of c) "notatListe" c)
          (parents, index) cs
    = (orphans index sagsnr_of cs,
       Returned (imap (λ n p, attach_list "notatListe"
                                (children_at index sagsnr_of n cs) p)
                      parents,
                 index)).
Proof.
  intros index parents cs.
  assert (index_in_range index (length parents)) as Hrange.
  { intros k i Hk. apply lookup_singleton_Some in Hk as [_ <-]. simpl. lia. }
  assert (Forall (λ p, is_Some (children_of p "notatListe")) parents) as Hall.
  { repeat constructor; by eexists. }
  split; [exact Hrange|]. split; [exact Hall|].
  exact (append_to_obj_run "notatListe" sagsnr_of index parents cs
           Hrange Hall).
Defined.

(** X2. Pass 1 over a [fil.csv] whose rows have a recognised kind and an id
    cell returns, and the three dictionaries hold, under each id, the rows of
    that kind and id in the order of the table, and no entry for an id
    without rows: a row is filed under its own kind only. *)
Theorem read_fil_index (fil : list csv_row) :
  Forall fil_row_ok fil →
  ∃ fd,
    read_fil (DictReader fil) = ([], Returned fd)
    ∧ ∀ t id,
        files_of t fd !! id
        = files_entry
            (row_dict
               <$> filter (λ row,
                             row !! "notes_template_name"
                             = Some (Some (template_name t))
                             ∧ row !! "notes_template_id" = Some id) fil).
Proof.
  intros Hall.
  destruct (read_fil_returned (DictReader fil)) as (fd & Hrun & Hfd).
  { apply Forall_fmap. eapply Forall_impl; [done|]. apply fil_row_ok_file. }
  exists fd. split; [done|]. intros t id. rewrite Hfd. f_equal.
  unfold files_matching, DictReader. clear.
  induction fil as [|row fil IH]; [done|].
  rewrite fmap_cons, !filter_cons, IH.
  destruct (decide (is_file_of t id (row_dict row))) as [Hf|Hf];
    unfold is_file_of in Hf; rewrite !field_key_row_dict in Hf.
  - by rewrite decide_True.
  - by rewrite decide_False.
Qed.

Lemma read_fil_index_witness :
  Forall fil_row_ok [fil_1; fil_2; fil_3; fil_4]
  ∧ ∃ fd,
      read_fil (DictReader [fil_1; fil_2; fil_3; fil_4]) = ([], Returned fd)
      ∧ ∀ t id,
          files_of t fd !! id
          = files_entry
              (row_dict
                 <$> filter (λ row,
                               row !! "notes_template_name"
                               = Some (Some (template_name t))
                               ∧ row !! "notes_template_id" = Some id)
                            [fil_1; fil_2; fil_3; fil_4]).
Proof.
  assert (Forall fil_row_ok [fil_1; fil_2; fil_3; fil_4]) as Hall.
  { repeat constructor.
    - by exists Dokument.
    - by eexists.
    - by exists Cdw.
    - by eexists.
    - by exists Dokument.
    - by eexists.
    - by exists Notat.
    - by eexists. }
  split; [exact Hall|]. exact (read_fil_index _ Hall).
Defined.

(** X3. Pass 3 over a [dokumentcdw.csv] that has the columns
    [dokument_id], [cdw_id] and [SagsNr] and no column [cdwListe] returns
    one document record for each row, in the order of the table: the
    document part of the row with its file list, holding the attachment of
    the row as its one attachment when the row has a non-empty [cdw_id] and
    a [dokument_id] cell.  The attachment of a row whose [dokument_id] cell
    is missing is not attached and is printed instead.  The index of the
    documents holds positions of the list and never the key [None]. *)
Theorem read_dokumentcdw_rows fd (rows : list csv_row) :
  Forall dokumentcdw_row_ok rows →
  ∃ index : gmap pykey Z,
    read_dokumentcdw fd (DictReader rows)
    = (lost_cdw fd rows, Returned (document_of_row fd <$> rows, index))
    ∧ index !! None = None
    ∧ index_in_range index (length rows).
Proof.
  intros Hall.
  destruct (foldM_dokumentcdw_rows fd rows [] ∅ Hall)
    as (index & Hrun & Hnone & Hrange); [done|by intros k i|].
  by exists index.
Qed.

Lemma read_dokumentcdw_rows_witness :
  let fd := FileDicts ∅ ∅ ∅ in
  let rows := [dokument_d1_cdw_a; dokument_short; dokument_of_1] in
  Forall dokumentcdw_row_ok rows
  ∧ lost_cdw fd rows = [NotFound None {["cdw_id" := VStr "c"]}]
  ∧ document_of_row fd <$> rows
    = [ <["cdwListe" := VList [{["cdw_id" := VStr "a"]}]]>
          {["dokument_id" := VStr "d1"; "SagsNr" := VStr "1"]};
        {["dokument_id" := VStr ""; "SagsNr" := VStr "1"]};
        {["dokument_id" := VStr "d1"; "SagsNr" := VStr "1"]} ]
  ∧ ∃ index : gmap pykey Z,
      read_dokumentcdw fd (DictReader rows)
      = (lost_cdw fd rows, Returned (document_of_row fd <$> rows, index))
      ∧ index !! None = None
      ∧ index_in_range index (length rows).
Proof.
  intros fd rows.
  assert (Forall dokumentcdw_row_ok rows) as Hall.
  { repeat constructor; by eexists. }
  split; [exact Hall|]. split; [reflexivity|]. split; [reflexivity|].
  exact (read_dokumentcdw_rows fd rows Hall).
Defined.

Lemma attach_list_lookup_ne ty cs p (k : string) :
  k ≠ ty → attach_list ty cs p !! k = p !! k.
Proof.
  intros Hne. unfold attach_list. destruct cs; [done|].
  by rewrite lookup_insert_ne.
Qed.

Lemma attach_list_lookup ty cs p :
  p !! ty = None → attach_list ty cs p !! ty = VList <$> files_entry cs.
Proof.
  intros Hp. unfold attach_list, children_of. rewrite Hp.
  destruct cs; [done|]. by rewrite lookup_insert_eq.
Qed.

Lemma cirius_closed fil sag dokumentcdw notat json :
  Forall fil_row_ok fil → Forall sag_row_ok sag →
  Forall dokumentcdw_row_ok dokumentcdw → Forall notat_row_ok notat →
  ∃ fd (index : gmap pykey Z),
    (∀ t id, files_of t fd !! id
             = files_entry (files_matching t id (DictReader fil)))
    ∧ (∀ k, index !! k = Z.of_nat <$> last_position k (DictReader sag))
    ∧ cirius (Folder (Some fil) (Some sag) (Some dokumentcdw) (Some notat)
                     json)
      = (Folder (Some fil) (Some sag) (Some dokumentcdw) (Some notat)
                (Some (joined index (DictReader sag)
                              (document_of_row fd <$> dokumentcdw)
                              (note_of_row fd <$> notat))),
         (lost_cdw fd dokumentcdw
          ++ orphans index sagsnr_of (document_of_row fd <$> dokumentcdw)
          ++ orphans index sagsnr_of (note_of_row fd <$> notat),
          Returned tt)).
Proof.
  intros Hfil Hsag Hdok Hnot.
  destruct (build_sager_closed fil sag dokumentcdw notat Hfil Hsag Hdok Hnot)
    as (fd & index & Hfd & Hindex & Hrun).
  exists fd, index. split; [done|]. split; [done|].
  unfold cirius. cbn [fil_csv sag_csv dokumentcdw_csv notat_csv].
  by rewrite Hrun.
Qed.

Lemma joined_lookup (index : gmap pykey Z) (sag : list csv_row) docs notes n
    row :
  Forall sag_row_ok sag → sag !! n = Some row →
  ∃ c, joined index (DictReader sag) docs notes !! n = Some c
       ∧ (∀ k : string, k ≠ "dokumentListe" → k ≠ "notatListe" →
                        c !! k = row_dict row !! k)
       ∧ c !! "dokumentListe"
         = VList <$> files_entry (children_at index sagsnr_of n docs)
       ∧ c !! "notatListe"
         = VList <$> files_entry (children_at index sagsnr_of n notes).
Proof.
  intros Hsag Hrow.
  eapply Forall_lookup_1 in Hsag as (_ & Hd & Hn); [|done].
  eexists. split.
  { unfold joined, DictReader.
    by rewrite list_lookup_imap, list_lookup_fmap, Hrow. }
  split; [|split].
  - intros k Hk1 Hk2. by rewrite !attach_list_lookup_ne.
  - rewrite attach_list_lookup_ne by done. apply attach_list_lookup.
    by rewrite row_dict_lookup, Hd.
  - apply attach_list_lookup. rewrite attach_list_lookup_ne by done.
    by rewrite row_dict_lookup, Hn.
Qed.

Lemma index_last_position (index : gmap pykey Z) (rows : list record) k n :
  (∀ k, index !! k = Z.of_nat <$> last_position k rows) →
  index !! k = Some (Z.of_nat n) ↔
  (∃ r, rows !! n = Some r ∧ field_key r "SagsNr" = Some k)
  ∧ (∀ n' r', n < n' → rows !! n' = Some r' → field_key r' "SagsNr" ≠ Some k).
Proof.
  intros Hindex. rewrite Hindex, <- last_position_Some.
  destruct (last_position k rows) as [j|]; simpl; [|done].
  split; [intros [= Hj]; f_equal; lia|by intros [= ->]].
Qed.

Lemma index_csv_rows (index : gmap pykey Z) (sag : list csv_row) :
  (∀ k, index !! k = Z.of_nat <$> last_position k (DictReader sag)) →
  (∀ k n,
     index !! k = Some (Z.of_nat n) ↔
     (∃ r, sag !! n = Some r ∧ r !! "SagsNr" = Some k)
     ∧ (∀ n' r', n < n' → sag !! n' = Some r' → r' !! "SagsNr" ≠ Some k)) →
  ∀ k i,
    index !! k = Some i ↔
    ∃ n, i = Z.of_nat n
         ∧ (∃ r, sag !! n = Some r ∧ r !! "SagsNr" = Some k)
         ∧ (∀ n' r', n < n' → sag !! n' = Some r' → r' !! "SagsNr" ≠ Some k).
Proof.
  intros Hindex Hlast k i. split.
  - intros Hk. pose proof Hk as Hk'. rewrite Hindex in Hk'.
    destruct (last_position k (DictReader sag)) as [n|]; [|done].
    simpl in Hk'. injection Hk' as <-. exists n. split; [done|].
    by apply Hlast.
  - intros (n & -> & Hn). by apply Hlast.
Qed.

(** X4. A run over tables that have the columns the passes read, and none
    named as a child list, returns.  Its output has one object for each row
    of [sag.csv], at the row's position: the row, with [dokumentListe] the
    documents of pass 3 whose [SagsNr] the index resolves to that position,
    in the order of [dokumentcdw.csv], with [notatListe] the notes whose
    [SagsNr] it resolves there, in the order of [notat.csv], and without
    the field when there is none.  The index resolves a [SagsNr] to the last
    row of [sag.csv] that carries it.  The lines printed are those of pass 3,
    then one for each document, then one for each note, whose [SagsNr] the
    index does not have. *)
Theorem cirius_join fil sag dokumentcdw notat json :
  Forall fil_row_ok fil → Forall sag_row_ok sag →
  Forall dokumentcdw_row_ok dokumentcdw → Forall notat_row_ok notat →
  ∃ fd (index : gmap pykey Z) sager,
    (∀ t id, files_of t fd !! id
             = files_entry (files_matching t id (DictReader fil)))
    ∧ (∀ k i,
         index !! k = Some i ↔
         ∃ n, i = Z.of_nat n
              ∧ (∃ r, sag !! n = Some r ∧ r !! "SagsNr" = Some k)
              ∧ (∀ n' r', n < n' → sag !! n' = Some r' →
                          r' !! "SagsNr" ≠ Some k))
    ∧ cirius (Folder (Some fil) (Some sag) (Some dokumentcdw) (Some notat)
                     json)
      = (Folder (Some fil) (Some sag) (Some dokumentcdw) (Some notat)
                (Some sager),
         (lost_cdw fd dokumentcdw
          ++ orphans index sagsnr_of (document_of_row fd <$> dokumentcdw)
          ++ orphans index sagsnr_of (note_of_row fd <$> notat),
          Returned tt))
    ∧ length sager = length sag
    ∧ ∀ n row,
        sag !! n = Some row →
        ∃ c, sager !! n = Some c
             ∧ (∀ k : string, k ≠ "dokumentListe" → k ≠ "notatListe" →
                              c !! k = row_dict row !! k)
             ∧ c !! "dokumentListe"
               = VList <$> files_entry
                             (children_at index sagsnr_of n
                                (document_of_row fd <$> dokumentcdw))
             ∧ c !! "notatListe"
               = VList <$> files_entry
                             (children_at index sagsnr_of n
                                (note_of_row fd <$> notat)).
Proof.
  intros Hfil Hsag Hdok Hnot.
  destruct (cirius_closed fil sag dokumentcdw notat json Hfil Hsag Hdok Hnot)
    as (fd & index & Hfd & Hindex & Hrun).
  exists fd, index,
    (joined index (DictReader sag) (document_of_row fd <$> dokumentcdw)
            (note_of_row fd <$> notat)).
  split; [done|]. split; [|split; [done|split]].
  - assert (∀ k n,
              index !! k = Some (Z.of_nat n) ↔
              (∃ r, sag !! n = Some r ∧ r !! "SagsNr" = Some k)
              ∧ (∀ n' r', n < n' → sag !! n' = Some r' →
                          r' !! "SagsNr" ≠ Some k)) as Hlast;
      [|by apply index_csv_rows].
    intros k n. rewrite (index_last_position _ _ _ _ Hindex).
    unfold DictReader. split.
    + intros [(r & Hr & Hk) Hlater].
      rewrite list_lookup_fmap in Hr.
      destruct (sag !! n) as [row|] eqn:Hrow; [|done]. simpl in Hr.
      simplify_eq. rewrite field_key_row_dict in Hk. split; [by exists row|].
      intros n' r' Hlt Hr'. specialize (Hlater n' (row_dict r') Hlt).
      rewrite list_lookup_fmap, Hr', field_key_row_dict in Hlater.
      by apply Hlater.
    + intros [(r & Hr & Hk) Hlater]. split.
      * exists (row_dict r).
        by rewrite list_lookup_fmap, Hr, field_key_row_dict.
      * intros n' r' Hlt Hr'. rewrite list_lookup_fmap in Hr'.
        destruct (sag !! n') as [row'|] eqn:Hrow'; [|done]. simpl in Hr'.
        simplify_eq. rewrite field_key_row_dict. by eapply Hlater.
  - unfold joined, DictReader. by rewrite length_imap, length_fmap.
  - intros n row Hrow. by apply joined_lookup.
Qed.

Lemma cirius_join_witness :
  Forall fil_row_ok [fil_1; fil_2; fil_3; fil_4]
  ∧ Forall sag_row_ok [sag_1]
  ∧ Forall dokumentcdw_row_ok [dokument_d1_cdw_a]
  ∧ Forall notat_row_ok [notat_of_1]
  ∧ ∃ fd (index : gmap pykey Z) sager,
      (∀ t id, files_of t fd !! id
               = files_entry
                   (files_matching t id
                      (DictReader [fil_1; fil_2; fil_3; fil_4])))
      ∧ (∀ k i,
           index !! k = Some i ↔
           ∃ n, i = Z.of_nat n
                ∧ (∃ r, [sag_1] !! n = Some r ∧ r !! "SagsNr" = Some k)
                ∧ (∀ n' r', n < n' → [sag_1] !! n' = Some r' →
                            r' !! "SagsNr" ≠ Some k))
      ∧ cirius folder_with_files
        = (Folder (Some [fil_1; fil_2; fil_3; fil_4]) (Some [sag_1])
                  (Some [dokument_d1_cdw_a]) (Some [notat_of_1])
                  (Some sager),
           (lost_cdw fd [dokument_d1_cdw_a]
            ++ orphans index sagsnr_of
                 (document_of_row fd <$> [dokument_d1_cdw_a])
            ++ orphans index sagsnr_of (note_of_row fd <$> [notat_of_1]),
            Returned tt))
      ∧ length sager = 1
      ∧ ∀ n row,
          [sag_1] !! n = Some row →
          ∃ c, sager !! n = Some c
               ∧ (∀ k : string, k ≠ "dokumentListe" → k ≠ "notatListe" →
                                c !! k = row_dict row !! k)
               ∧ c !! "dokumentListe"
                 = VList <$> files_entry
                               (children_at index sagsnr_of n
                                  (document_of_row fd <$> [dokument_d1_cdw_a]))
               ∧ c !! "notatListe"
                 = VList <$> files_entry
                               (children_at index sagsnr_of n
                                  (note_of_row fd <$> [notat_of_1])).
Proof.
  assert (Forall fil_row_ok [fil_1; fil_2; fil_3; fil_4]) as Hfil.
  { repeat constructor.
    - by exists Dokument.
    - by eexists.
    - by exists Cdw.
    - by eexists.
    - by exists Dokument.
    - by eexists.
    - by exists Notat.
    - by eexists. }
  assert (Forall sag_row_ok [sag_1]) as Hsag.
  { repeat constructor. by eexists. }
  assert (Forall dokumentcdw_row_ok [dokument_d1_cdw_a]) as Hdok.
  { repeat constructor; by eexists. }
  assert (Forall notat_row_ok [notat_of_1]) as Hnot.
  { repeat constructor; by eexists. }
  split; [exact Hfil|]. split; [exact Hsag|]. split; [exact Hdok|].
  split; [exact Hnot|].
  exact (cirius_join [fil_1; fil_2; fil_3; fil_4] [sag_1] [dokument_d1_cdw_a]
           [notat_of_1] None Hfil Hsag Hdok Hnot).
Defined.

(** X5. Over tables that were read, whatever their columns and cells, the
    passes of a run never end with an [IndexError] or a [TypeError]: the
    positions in the two indexes are positions of their lists, and every
    value that is hashed or subscripted is a cell of a CSV row or a dict. *)
Theorem cirius_exn fs fs' out e :
  cirius fs = (fs', (out, Raised e)) → e ≠ IndexError ∧ e ≠ TypeError.
Proof.
  intros Hrun. assert (run_exn e) as He; [|by destruct e].
  revert Hrun.
  destruct fs as [[fil|] [sag|] [dokumentcdw|] [notat|] json];
    unfold cirius; cbn [fil_csv sag_csv dokumentcdw_csv notat_csv];
    try (by intros [= <- <- <-]).
  destruct (build_sager fil sag dokumentcdw notat) as [out' [sager|e']] eqn:Hb;
    [done|].
  intros [= <- <- <-]. by eapply build_sager_raised.
Qed.

Lemma cirius_exn_witness :
  cirius folder_unknown_template
  = (folder_unknown_template, ([], Raised (KeyError (Some "sag"))))
  ∧ KeyError (Some "sag") ≠ IndexError
  ∧ KeyError (Some "sag") ≠ TypeError.
Proof.
  assert (cirius folder_unknown_template
          = (folder_unknown_template, ([], Raised (KeyError (Some "sag")))))
    as Hrun by reflexivity.
  split; [exact Hrun|].
  exact (cirius_exn folder_unknown_template folder_unknown_template []
           (KeyError (Some "sag")) Hrun).
Defined.

(** X6. Whenever pass 2 or pass 3 returns, whatever columns the rows
    have, its list has one record for each row of its table and every
    position that its index holds is a position of that list: the subscripts
    of [append_to_obj] are in range afterwards. *)
Theorem indexes_in_range fd (sag dokumentcdw : list csv_row) :
  (∀ out sager index,
     read_sag (DictReader sag) = (out, Returned (sager, index)) →
     sager = DictReader sag ∧ index_in_range index (length sager))
  ∧ (∀ out dokumenter index,
       read_dokumentcdw fd (DictReader dokumentcdw)
       = (out, Returned (dokumenter, index)) →
       length dokumenter = length dokumentcdw
       ∧ index_in_range index (length dokumenter)).
Proof.
  split.
  - intros out sager index Hrun. split; [|by eapply read_sag_range].
    apply foldM_sag_step_returned in Hrun as (_ & Hs & _). by simpl in Hs.
  - intros out dokumenter index Hrun. split.
    + apply read_dokumentcdw_length in Hrun. unfold DictReader in Hrun.
      by rewrite length_fmap in Hrun.
    + by apply read_dokumentcdw_cells in Hrun as [? _].
Qed.

Lemma indexes_in_range_witness :
  ∃ index : gmap pykey Z,
    read_sag (DictReader sager_same_nr)
    = ([], Returned (DictReader sager_same_nr, index))
    ∧ index_in_range index 2.
Proof.
  exists {[Some "1" := 1%Z]}.
  assert (read_sag (DictReader sager_same_nr)
          = ([], Returned (DictReader sager_same_nr, {[Some "1" := 1%Z]})))
    as Hrun by reflexivity.
  split; [exact Hrun|].
  exact (proj2 (proj1 (indexes_in_range (FileDicts ∅ ∅ ∅) sager_same_nr [])
                  _ _ _ Hrun)).
Defined.

Lemma note_of_row_sagsnr fd (row : csv_row) c :
  row !! "SagsNr" = Some c → sagsnr_of (note_of_row fd row) = c.
Proof.
  intros Hc. unfold sagsnr_of, note_of_row, field_key.
  rewrite add_filListe_lookup, decide_False, row_dict_lookup, Hc by done.
  simpl. by rewrite key_of_cell.
Qed.

Lemma document_of_row_sagsnr_of fd (row : csv_row) c :
  row !! "SagsNr" = Some c →
  sagsnr_of (document_of_row fd row) = Some (default "" c).
Proof.
  intros Hc. unfold sagsnr_of. by rewrite (document_of_row_sagsnr _ _ _ Hc).
Qed.

Lemma index_unknown (index : gmap pykey Z) (sag : list csv_row) k :
  (∀ k, index !! k = Z.of_nat <$> last_position k (DictReader sag)) →
  (∀ s, s ∈ sag → s !! "SagsNr" ≠ Some k) →
  index !! k = None.
Proof.
  intros Hindex Hno. rewrite Hindex.
  assert (last_position k (DictReader sag) = None) as ->; [|done].
  apply last_position_None. intros j r Hr. unfold DictReader in Hr.
  rewrite list_lookup_fmap in Hr.
  destruct (sag !! j) as [s|] eqn:Hs; [|done]. simpl in Hr. simplify_eq.
  rewrite field_key_row_dict. apply Hno. by eapply list_elem_of_lookup_2.
Qed.

Lemma orphans_elem (index : gmap pykey Z) f cs c :
  c ∈ cs → index !! f c = None → NotFound (f c) c ∈ orphans index f cs.
Proof.
  intros Hc Hk. unfold orphans.
  apply (list_elem_of_fmap_2 (λ c, NotFound (f c) c)).
  by apply list_elem_of_filter.
Qed.

Lemma children_at_not_elem (index : gmap pykey Z) f n cs c :
  index !! f c = None → c ∉ children_at index f n cs.
Proof.
  intros Hk Hc. apply list_elem_of_filter in Hc as [Hc _]. congruence.
Qed.

Lemma joined_elem (index : gmap pykey Z) (sag : list csv_row) docs notes
    sag_obj :
  sag_obj ∈ joined index (DictReader sag) docs notes →
  ∃ n row, sag !! n = Some row
           ∧ joined index (DictReader sag) docs notes !! n = Some sag_obj.
Proof.
  intros Hin. apply list_elem_of_lookup in Hin as [n Hn]. exists n.
  pose proof Hn as Hn'. unfold joined, DictReader in Hn'.
  rewrite list_lookup_imap, list_lookup_fmap in Hn'.
  destruct (sag !! n) as [row|]; [|done]. by exists row.
Qed.

(** X7. In a run over well-formed tables, a note whose [SagsNr] no row of
    [sag.csv] carries, and a document whose [SagsNr] (with [None] read as the
    empty string) no row carries, do not stop the run: the run returns, it
    prints the line that names the key and the object, and the object is in
    no [notatListe], respectively no [dokumentListe], of the output.  The
    object is the one that its pass makes of the row, with the file lists
    [fd] of pass 1: under each kind and id, the files of [fil.csv] with that
    kind and id, in the order of the table. *)
Theorem orphans_reported fil sag dokumentcdw notat json :
  Forall fil_row_ok fil → Forall sag_row_ok sag →
  Forall dokumentcdw_row_ok dokumentcdw → Forall notat_row_ok notat →
  ∃ fd sager out,
    (∀ t id, files_of t fd !! id
             = files_entry (files_matching t id (DictReader fil)))
    ∧ cirius (Folder (Some fil) (Some sag) (Some dokumentcdw) (Some notat)
                     json)
      = (Folder (Some fil) (Some sag) (Some dokumentcdw) (Some notat)
                (Some sager),
         (out, Returned tt))
    ∧ (∀ row c,
         row ∈ notat → row !! "SagsNr" = Some c →
         (∀ s, s ∈ sag → s !! "SagsNr" ≠ Some c) →
         NotFound c (note_of_row fd row) ∈ out
         ∧ ∀ sag_obj l,
             sag_obj ∈ sager → sag_obj !! "notatListe" = Some (VList l) →
             note_of_row fd row ∉ l)
    ∧ (∀ row c,
         row ∈ dokumentcdw → row !! "SagsNr" = Some c →
         (∀ s, s ∈ sag → s !! "SagsNr" ≠ Some (Some (default "" c))) →
         NotFound (Some (default "" c)) (document_of_row fd row) ∈ out
         ∧ ∀ sag_obj l,
             sag_obj ∈ sager → sag_obj !! "dokumentListe" = Some (VList l) →
             document_of_row fd row ∉ l).
Proof.
  intros Hfil Hsag Hdok Hnot.
  destruct (cirius_closed fil sag dokumentcdw notat json Hfil Hsag Hdok Hnot)
    as (fd & index & Hfd & Hindex & Hrun).
  eexists fd, _, _. split; [exact Hfd|]. split; [exact Hrun|]. split.
  - intros row c Hrow Hc Hno.
    pose proof (index_unknown _ _ _ Hindex Hno) as Hk.
    rewrite <- (note_of_row_sagsnr fd row c Hc) in Hk.
    split.
    + rewrite !elem_of_app. right. right.
      rewrite <- (note_of_row_sagsnr fd row c Hc) at 1.
      apply orphans_elem; [|done]. by apply list_elem_of_fmap_2.
    + intros sag_obj l Hin Hl.
      apply joined_elem in Hin as (n & srow & Hsrow & Hn).
      destruct (joined_lookup index sag (document_of_row fd <$> dokumentcdw)
                  (note_of_row fd <$> notat) n srow Hsag Hsrow)
        as (c' & Hc' & _ & _ & Hnl).
      assert (c' = sag_obj) as -> by congruence.
      rewrite Hl in Hnl.
      destruct (children_at index sagsnr_of n (note_of_row fd <$> notat))
        as [|x xs] eqn:Hcs; [done|]. simpl in Hnl. simplify_eq.
      rewrite <- Hcs. by apply children_at_not_elem.
  - intros row c Hrow Hc Hno.
    pose proof (index_unknown _ _ _ Hindex Hno) as Hk.
    rewrite <- (document_of_row_sagsnr_of fd row c Hc) in Hk.
    split.
    + rewrite !elem_of_app. right. left.
      rewrite <- (document_of_row_sagsnr_of fd row c Hc) at 1.
      apply orphans_elem; [|done]. by apply list_elem_of_fmap_2.
    + intros sag_obj l Hin Hl.
      apply joined_elem in Hin as (n & srow & Hsrow & Hn).
      destruct (joined_lookup index sag (document_of_row fd <$> dokumentcdw)
                  (note_of_row fd <$> notat) n srow Hsag Hsrow)
        as (c' & Hc' & _ & Hdl & _).
      assert (c' = sag_obj) as -> by congruence.
      rewrite Hl in Hdl.
      destruct (children_at index sagsnr_of n
                  (document_of_row fd <$> dokumentcdw))
        as [|x xs] eqn:Hcs; [done|]. simpl in Hdl. simplify_eq.
      rewrite <- Hcs. by apply children_at_not_elem.
Qed.

Lemma orphans_reported_witness :
  Forall fil_row_ok [] ∧ Forall sag_row_ok [sag_1]
  ∧ Forall dokumentcdw_row_ok [dokument_of_2]
  ∧ Forall notat_row_ok [notat_of_2]
  ∧ notat_of_2 ∈ [notat_of_2]
  ∧ notat_of_2 !! "SagsNr" = Some (Some "2")
  ∧ (∀ s, s ∈ [sag_1] → s !! "SagsNr" ≠ Some (Some "2"))
  ∧ ∃ fd sager out,
      (∀ t id, files_of t fd !! id
               = files_entry (files_matching t id (DictReader [])))
      ∧ cirius folder_orphans
        = (Folder (Some []) (Some [sag_1]) (Some [dokument_of_2])
                  (Some [notat_of_2]) (Some sager),
           (out, Returned tt))
      ∧ (∀ row c,
           row ∈ [notat_of_2] → row !! "SagsNr" = Some c →
           (∀ s, s ∈ [sag_1] → s !! "SagsNr" ≠ Some c) →
           NotFound c (note_of_row fd row) ∈ out
           ∧ ∀ sag_obj l,
               sag_obj ∈ sager → sag_obj !! "notatListe" = Some (VList l) →
               note_of_row fd row ∉ l)
      ∧ (∀ row c,
           row ∈ [dokument_of_2] → row !! "SagsNr" = Some c →
           (∀ s, s ∈ [sag_1] → s !! "SagsNr" ≠ Some (Some (default "" c))) →
           NotFound (Some (default "" c)) (document_of_row fd row) ∈ out
           ∧ ∀ sag_obj l,
               sag_obj ∈ sager →
               sag_obj !! "dokumentListe" = Some (VList l) →
               document_of_row fd row ∉ l).
Proof.
  assert (Forall sag_row_ok [sag_1]) as Hsag.
  { repeat constructor. by eexists. }
  assert (Forall dokumentcdw_row_ok [dokument_of_2]) as Hdok.
  { repeat constructor; by eexists. }
  assert (Forall notat_row_ok [notat_of_2]) as Hnot.
  { repeat constructor; by eexists. }
  split; [constructor|]. split; [exact Hsag|]. split; [exact Hdok|].
  split; [exact Hnot|]. split; [apply list_elem_of_here|].
  split; [reflexivity|]. split.
  { intros s Hs. apply elem_of_cons in Hs as [->|Hs]; [discriminate|].
    by apply elem_of_nil in Hs. }
  exact (orphans_reported [] [sag_1] [dokument_of_2] [notat_of_2] None
           (Forall_nil_2 _) Hsag Hdok Hnot).
Defined.

Lemma children_at_shadowed (index : gmap pykey Z) (sag : list csv_row) f n n'
    row row' cs :
  (∀ k, index !! k = Z.of_nat <$> last_position k (DictReader sag)) →
  sag !! n = Some row → sag !! n' = Some row' → n < n' →
  row !! "SagsNr" = row' !! "SagsNr" →
  children_at index f n cs = [].
Proof.
  intros Hindex Hrow Hrow' Hlt Hsame. unfold children_at.
  induction cs as [|c cs IH]; [done|].
  rewrite filter_cons, IH, decide_False; [done|].
  intros Hk. apply (index_last_position _ _ _ _ Hindex) in Hk
    as [(r & Hr & Hkr) Hlater].
  unfold DictReader in Hr. rewrite list_lookup_fmap, Hrow in Hr.
  simpl in Hr. simplify_eq. rewrite field_key_row_dict in Hkr.
  apply (Hlater n' (row_dict row') Hlt).
  - unfold DictReader. by rewrite list_lookup_fmap, Hrow'.
  - rewrite field_key_row_dict. congruence.
Qed.

(** X8. In a run over well-formed tables, a row of [sag.csv] that is
    followed by a row with the same [SagsNr] gets no child: its object in the
    output is the row as it was read, without [dokumentListe] and without
    [notatListe]. *)
Theorem repeated_sag_gets_nothing fil sag dokumentcdw notat json n n' row
    row' :
  Forall fil_row_ok fil → Forall sag_row_ok sag →
  Forall dokumentcdw_row_ok dokumentcdw → Forall notat_row_ok notat →
  sag !! n = Some row → sag !! n' = Some row' → n < n' →
  row !! "SagsNr" = row' !! "SagsNr" →
  ∃ sager out,
    cirius (Folder (Some fil) (Some sag) (Some dokumentcdw) (Some notat) json)
    = (Folder (Some fil) (Some sag) (Some dokumentcdw) (Some notat)
              (Some sager),
       (out, Returned tt))
    ∧ sager !! n = Some (row_dict row).
Proof.
  intros Hfil Hsag Hdok Hnot Hrow Hrow' Hlt Hsame.
  destruct (cirius_closed fil sag dokumentcdw notat json Hfil Hsag Hdok Hnot)
    as (fd & index & _ & Hindex & Hrun).
  eexists _, _. split; [exact Hrun|].
  unfold joined, DictReader.
  rewrite list_lookup_imap, list_lookup_fmap, Hrow. simpl.
  by rewrite !(children_at_shadowed index sag sagsnr_of n n' row row').
Qed.

Lemma repeated_sag_gets_nothing_witness :
  Forall fil_row_ok [] ∧ Forall sag_row_ok sager_same_nr
  ∧ Forall dokumentcdw_row_ok [dokument_of_1]
  ∧ Forall notat_row_ok [notat_of_1]
  ∧ sager_same_nr !! 0 = Some sag_1a ∧ sager_same_nr !! 1 = Some sag_1b
  ∧ 0 < 1 ∧ sag_1a !! "SagsNr" = sag_1b !! "SagsNr"
  ∧ ∃ sager out,
      cirius (Folder (Some []) (Some sager_same_nr) (Some [dokument_of_1])
                     (Some [notat_of_1]) None)
      = (Folder (Some []) (Some sager_same_nr) (Some [dokument_of_1])
                (Some [notat_of_1]) (Some sager),
         (out, Returned tt))
      ∧ sager !! 0 = Some (row_dict sag_1a).
Proof.
  assert (Forall sag_row_ok sager_same_nr) as Hsag.
  { repeat constructor; by eexists. }
  assert (Forall dokumentcdw_row_ok [dokument_of_1]) as Hdok.
  { repeat constructor; by eexists. }
  assert (Forall notat_row_ok [notat_of_1]) as Hnot.
  { repeat constructor; by eexists. }
  assert (0 < 1) as Hlt by lia.
  split; [constructor|]. split; [exact Hsag|]. split; [exact Hdok|].
  split; [exact Hnot|]. split; [reflexivity|]. split; [reflexivity|].
  split; [exact Hlt|]. split; [reflexivity|].
  exact (repeated_sag_gets_nothing [] sager_same_nr [dokument_of_1]
           [notat_of_1] None 0 1 sag_1a sag_1b (Forall_nil_2 _) Hsag Hdok Hnot
           eq_refl eq_refl Hlt eq_refl).
Defined.
